(** * LLM-DECO: node energy model and orchestration decision

    A shallow embedding of [node_simulator.py] and [llm_orchestrator.py].

    - Python [float] is IEEE-754 binary64, which is Rocq's primitive [float];
      arithmetic ([+], [-], [*]) is the primitive one, with its rounding.
    - JSON numbers are Python [int]s, [float]s and [bool]s; Python orders
      them by exact value, which on two [float]s is the comparison of the
      doubles (module [FloatOrder]).
    - [dict]s are stdpp [gmap]s with string keys.
    - [datetime.now().isoformat()] reads the wall clock: every operation that
      reads it takes the reading as an explicit argument [now].
    - Exceptions ([KeyError], [TypeError]) are results of an error monad.

    The modules [Py], [NodeSimulator] and [LlmOrchestrator] hold the program;
    the modules after them hold its properties. Not modelled: [to_json],
    [generate_llm_prompt], JSON text, and the printing of the [__main__]
    blocks. *)

From Stdlib Require Import ZArith QArith Qpower Floats.
From stdpp Require Import gmap strings list fin_maps.

Set Warnings "-inexact-float,-register-all".
Set Default Proof Using "Type".
Open Scope Z_scope.

(** ** Python values

    What [json.loads] produces, and how Python compares numbers. *)

Module Py.

(** The exact mathematical value of a Python number: not a number, an
    infinity ([neg] for the negative one), or a rational. *)
Inductive exact :=
  | ENaN
  | EInf (neg : bool)
  | EFin (q : Q).

(** The value of a double, read off its sign, mantissa and exponent:
    [+-m * 2^e] for a finite one. Both zeros have the value 0. *)
Definition sf_exact (x : spec_float) : exact :=
  match x with
  | S754_zero _ => EFin 0
  | S754_infinity s => EInf s
  | S754_nan => ENaN
  | S754_finite s m e =>
      EFin (Qmult (inject_Z (if s then Z.neg m else Z.pos m)) (Qpower (2 # 1) e))
  end.

Definition float_exact (f : float) : exact := sf_exact (Prim2SF f).

(** The magnitude [m * 2^e] of a finite double. *)
Definition mag (m : positive) (e : Z) : Q :=
  Qmult (inject_Z (Z.pos m)) (Qpower (2 # 1) e).

(** A Python numeric object: [bool] (a subclass of [int], worth 0 or 1),
    [int] (unbounded) or [float]. *)
Inductive pynum :=
  | PyBool (b : bool)
  | PyInt (z : Z)
  | PyFloat (f : float).

Definition num_exact (n : pynum) : exact :=
  match n with
  | PyBool b => EFin (inject_Z (if b then 1 else 0))
  | PyInt z => EFin (inject_Z z)
  | PyFloat f => float_exact f
  end.

(** Three-way comparison of exact values; [None] when either is [nan]. *)
Definition exact_compare (a b : exact) : option comparison :=
  match a, b with
  | ENaN, _ | _, ENaN => None
  | EInf s1, EInf s2 =>
      Some (if s1 then if s2 then Eq else Lt else if s2 then Gt else Eq)
  | EInf s, EFin _ => Some (if s then Lt else Gt)
  | EFin _, EInf s => Some (if s then Gt else Lt)
  | EFin p, EFin q => Some (Qcompare p q)
  end.

(** Python compares two numbers, of the same or of different numeric
    types, by their exact values ([int] against [float] without rounding
    the [int]); every ordered comparison with [nan] is [False]. *)
Definition py_lt (a b : pynum) : bool :=
  match exact_compare (num_exact a) (num_exact b) with
  | Some Lt => true
  | _ => false
  end.

Definition py_le (a b : pynum) : bool :=
  match exact_compare (num_exact a) (num_exact b) with
  | Some Lt | Some Eq => true
  | _ => false
  end.

Definition py_eq (a b : pynum) : bool :=
  match exact_compare (num_exact a) (num_exact b) with
  | Some Eq => true
  | _ => false
  end.

Definition py_gt (a b : pynum) : bool := py_lt b a.
Definition py_ge (a b : pynum) : bool := py_le b a.

(** A parsed JSON value: [null], a number ([true] and [false] are Python
    [bool]s), a string, an array or an object. *)
Inductive value :=
  | VNone
  | VNum (n : pynum)
  | VStr (s : string)
  | VList (l : list value)
  | VDict (d : gmap string value).

(** The exceptions the decision function can raise. *)
Inductive exn :=
  | KeyError (key : string)
  | TypeError.

Inductive result (A : Type) :=
  | Ok (a : A)
  | Raise (e : exn).
Arguments Ok {A} a.
Arguments Raise {A} e.

#[global] Instance result_ret : MRet result := λ A a, Ok a.
#[global] Instance result_bind : MBind result := λ A B k m,
  match m with
  | Ok a => k a
  | Raise e => Raise e
  end.

(** [d.get(key, default)]. *)
Definition dict_get {V : Type} (d : gmap string V) (key : string) (dflt : V) : V :=
  match d !! key with
  | Some v => v
  | None => dflt
  end.

(** [d[key]]. *)
Definition subscript {V : Type} (d : gmap string V) (key : string) : result V :=
  match d !! key with
  | Some v => Ok v
  | None => Raise (KeyError key)
  end.

(** Truth value of a [dict]: empty is false. *)
Definition dict_truthy {V : Type} (d : gmap string V) : bool :=
  if decide (d = ∅) then false else true.

(** [v >= n] and [v > n] for a number [n]: a [TypeError] unless [v] is a
    number too. *)
Definition ge_num (v : value) (n : pynum) : result bool :=
  match v with
  | VNum m => Ok (py_ge m n)
  | _ => Raise TypeError
  end.

Definition gt_num (v : value) (n : pynum) : result bool :=
  match v with
  | VNum m => Ok (py_gt m n)
  | _ => Raise TypeError
  end.

End Py.

(** ** node_simulator.py *)

Module NodeSimulator.
Import Py.

(** [POWER_CONSUMPTION]: watts drawn in each policy. *)
Definition POWER_CONSUMPTION : gmap string float :=
  list_to_map
    [ ("SLEEP", 0.00001%float);
      ("WAKE_LISTEN", 0.05%float);
      ("SENSE_LOW", 0.02%float);
      ("SENSE_HIGH", 0.15%float);
      ("TRANSMIT", 0.25%float) ].

Definition HARVEST_RATE_MAX : float := 0.005%float.

(** [MAX_CAPACITY = 3600] is a Python [int]; wherever the program uses it
    (a default for a [float] field, a bound compared with a [float], a
    value later added to a [float]) it acts as the double 3600.0, which
    represents it exactly. *)
Definition MAX_CAPACITY : float := 3600%float.

(** The dataclass [NodeState]. *)
Record NodeState := mkNodeState {
  node_id : string;
  battery_joules : float;
  current_policy : string;
  last_wake_time : string;
  harvest_potential : float;
  data_uncertainty : float
}.

(** [NodeState(node_id=.., battery_joules=..)]: the other fields take the
    dataclass defaults. The default of [last_wake_time] is evaluated once,
    when the class is defined; [import_time] is that clock reading. *)
Definition NodeState_new (import_time : string) (nid : string)
    (battery : float) : NodeState :=
  {| node_id := nid;
     battery_joules := battery;
     current_policy := "SLEEP";
     last_wake_time := import_time;
     harvest_potential := 0.0%float;
     data_uncertainty := 0.5%float |}.

(** The class [IoTNodeSimulator]: an object with two attributes. *)
Record IoTNodeSimulator := mkSim {
  state : NodeState;
  time_step : float
}.

(** [IoTNodeSimulator.__init__]. *)
Definition init (import_time : string) (nid : string)
    (initial_capacity : float) : IoTNodeSimulator :=
  {| state := NodeState_new import_time nid initial_capacity;
     time_step := 1.0%float |}.

(** [POWER_CONSUMPTION["SLEEP"]]: the key is in the table, so the
    subscript never raises. *)
Definition POWER_CONSUMPTION_SLEEP : float :=
  dict_get POWER_CONSUMPTION "SLEEP" 0.00001%float.

(** [IoTNodeSimulator._calculate_power_change]. *)
Definition _calculate_power_change (self : IoTNodeSimulator) : float :=
  let P_consume :=
    dict_get POWER_CONSUMPTION (current_policy (state self)) POWER_CONSUMPTION_SLEEP in
  let P_harvest := (harvest_potential (state self) * HARVEST_RATE_MAX)%float in
  (P_harvest - P_consume)%float.

(** Python's two-argument [min(a, b)] and [max(a, b)]: the first argument
    is kept unless the second compares strictly smaller (greater). A [nan]
    second argument therefore never replaces the first. In [update_state]
    the first arguments are the [int]s [MAX_CAPACITY] and 0, here the doubles
    of the same value. *)
Definition py_min (a b : float) : float := if (b <? a)%float then b else a.
Definition py_max (a b : float) : float := if (a <? b)%float then b else a.

(** [IoTNodeSimulator.update_state], called when the clock reads [now].
    [duration_s] is annotated [float]; the [int]s the [__main__] block passes
    (3600, 60) are converted to the same doubles by the multiplication. *)
Definition update_state (now : string) (self : IoTNodeSimulator)
    (duration_s : float) : IoTNodeSimulator :=
  let energy_change_rate := _calculate_power_change self in
  let energy_change := (energy_change_rate * duration_s)%float in
  let st := state self in
  let battery := (battery_joules st + energy_change)%float in
  let battery := py_max 0%float (py_min MAX_CAPACITY battery) in
  {| state :=
       {| node_id := node_id st;
          battery_joules := battery;
          current_policy := current_policy st;
          last_wake_time := now;
          harvest_potential := harvest_potential st;
          data_uncertainty := data_uncertainty st |};
     time_step := time_step self |}.

(** [IoTNodeSimulator.set_policy]. It does not read the clock. *)
Definition set_policy (self : IoTNodeSimulator) (new_policy : string)
    : IoTNodeSimulator :=
  match POWER_CONSUMPTION !! new_policy with
  | Some _ =>
      let st := state self in
      {| state :=
           {| node_id := node_id st;
              battery_joules := battery_joules st;
              current_policy := new_policy;
              last_wake_time := last_wake_time st;
              harvest_potential := harvest_potential st;
              data_uncertainty := data_uncertainty st |};
         time_step := time_step self |}
  | None => self
  end.

(** The assignment [self.state.harvest_potential = h] of the [__main__]
    block. *)
Definition set_harvest_potential (self : IoTNodeSimulator) (h : float)
    : IoTNodeSimulator :=
  let st := state self in
  {| state :=
       {| node_id := node_id st;
          battery_joules := battery_joules st;
          current_policy := current_policy st;
          last_wake_time := last_wake_time st;
          harvest_potential := h;
          data_uncertainty := data_uncertainty st |};
     time_step := time_step self |}.

(** The two mutating methods, and a call of either while the clock reads
    [now]. *)
Inductive call :=
  | UpdateState (duration_s : float)
  | SetPolicy (new_policy : string).

Definition run (now : string) (self : IoTNodeSimulator) (c : call)
    : IoTNodeSimulator :=
  match c with
  | UpdateState duration_s => update_state now self duration_s
  | SetPolicy new_policy => set_policy self new_policy
  end.

(** The enumerated operating policies. *)
Definition POLICIES : list string :=
  ["SLEEP"; "WAKE_LISTEN"; "SENSE_LOW"; "SENSE_HIGH"; "TRANSMIT"].

(** The battery bound of the state invariant, [0 <= b <= MAX_CAPACITY], as
    comparisons of doubles. *)
Definition battery_in_range (b : float) : bool :=
  (0 <=? b)%float && (b <=? MAX_CAPACITY)%float.

(** *** Runs of a simulator

    What a caller does to a simulator object: the two methods, and the
    assignments to [state.harvest_potential] and [state.data_uncertainty]
    that the [__main__] blocks make. *)

(** The assignment [self.state.data_uncertainty = u]. *)
Definition set_data_uncertainty (self : IoTNodeSimulator) (u : float)
    : IoTNodeSimulator :=
  let st := state self in
  {| state :=
       {| node_id := node_id st;
          battery_joules := battery_joules st;
          current_policy := current_policy st;
          last_wake_time := last_wake_time st;
          harvest_potential := harvest_potential st;
          data_uncertainty := u |};
     time_step := time_step self |}.

Inductive event :=
  | Update (now : string) (duration_s : float)
  | Policy (new_policy : string)
  | Harvest (h : float)
  | Uncertainty (u : float).

Definition apply_event (self : IoTNodeSimulator) (e : event) : IoTNodeSimulator :=
  match e with
  | Update now duration_s => update_state now self duration_s
  | Policy new_policy => set_policy self new_policy
  | Harvest h => set_harvest_potential self h
  | Uncertainty u => set_data_uncertainty self u
  end.

Definition run_events (self : IoTNodeSimulator) (es : list event)
    : IoTNodeSimulator :=
  foldl apply_event self es.

(** The clock readings of the [update_state] calls of a run, and the
    policies of its [set_policy] calls that are keys of the table, both in
    order. *)
Definition update_times (es : list event) : list string :=
  omap (λ e, match e with Update now _ => Some now | _ => None end) es.

Definition accepted_policies (es : list event) : list string :=
  omap (λ e, match e with
             | Policy p =>
                 match POWER_CONSUMPTION !! p with
                 | Some _ => Some p
                 | None => None
                 end
             | _ => None
             end) es.

(** *** [to_json]

    The dict [state_dict] that [to_json] builds and hands to [json.dumps];
    the JSON text itself is not modelled. [py_round] is the built-in
    [round(x, ndigits)] on a [float], which returns a [float]. *)

Section ToJson.
Variable py_round : float → Z → float.

Definition to_json_dict (self : IoTNodeSimulator) : gmap string value :=
  let st := state self in
  list_to_map
    [ ("node_id", VStr (node_id st));
      ("battery_percent",
         VNum (PyFloat (py_round ((battery_joules st / MAX_CAPACITY) * 100)%float 2)));
      ("current_policy", VStr (current_policy st));
      ("harvest_potential", VNum (PyFloat (harvest_potential st)));
      ("data_uncertainty", VNum (PyFloat (py_round (data_uncertainty st) 4)));
      ("max_capacity_joules", VNum (PyInt 3600)) ].

End ToJson.

End NodeSimulator.

(** ** llm_orchestrator.py *)

Module LlmOrchestrator.
Import Py.

(** The [required] list of [LLM_OUTPUT_SCHEMA]. *)
Definition LLM_OUTPUT_SCHEMA_required : list string := ["action"; "reasoning"].

Definition MIN_BATTERY_PERCENT : pynum := PyFloat 20.0.

(** The loop variables [best_candidate] and [max_uncertainty].
    [max_uncertainty] starts as the [int] -1 and is only ever assigned a
    value that compared greater than a number, so it is always a number. *)
Record scan := mkScan {
  best_candidate : option (gmap string value);
  max_uncertainty : pynum
}.

Definition scan_init : scan :=
  {| best_candidate := None; max_uncertainty := PyInt (-1) |}.

(** The loop body's [battery_ok] and [uncertainty]. *)
Definition battery_ok (node : gmap string value) : result bool :=
  ge_num (dict_get node "battery_percent" (VNum (PyInt 0))) MIN_BATTERY_PERCENT.

Definition uncertainty (node : gmap string value) : value :=
  dict_get node "data_uncertainty" (VNum (PyInt 0)).

(** One iteration of [for node in network_state]. The [and] short-circuits:
    [uncertainty > max_uncertainty] is evaluated only when [battery_ok]. *)
Definition scan_step (st : scan) (node : gmap string value) : result scan :=
  ok ← battery_ok node;
  if (ok : bool) then
    match uncertainty node with
    | VNum u =>
        if py_gt u (max_uncertainty st)
        then Ok {| best_candidate := Some node; max_uncertainty := u |}
        else Ok st
    | _ => Raise TypeError
    end
  else Ok st.

Fixpoint scan_loop (st : scan) (network_state : list (gmap string value))
    : result scan :=
  match network_state with
  | [] => Ok st
  | node :: rest => st' ← scan_step st node; scan_loop st' rest
  end.

Definition bo_params_high : value :=
  VDict (<["sampling_interval_s" := VNum (PyFloat 5.0)]>
         (<["tx_power_dbm" := VNum (PyFloat 10.0)]> ∅)).

Definition bo_params_low : value :=
  VDict (<["sampling_interval_s" := VNum (PyFloat 30.0)]>
         (<["tx_power_dbm" := VNum (PyFloat 5.0)]> ∅)).

Definition DO_NOTHING_reasoning : string :=
  "No node requires critical action. All high-uncertainty nodes are either below the 20% critical battery threshold or all uncertainty is currently acceptable.".

Definition do_nothing : gmap string value :=
  <["action" := VStr "DO_NOTHING"]>
  (<["reasoning" := VStr DO_NOTHING_reasoning]> ∅).

Definition wake_node (target : value) (policy : string) (bo_params : value)
    (reason : string) : gmap string value :=
  <["action" := VStr "WAKE_NODE"]>
  (<["target_node_id" := target]>
  (<["new_policy" := VStr policy]>
  (<["bo_parameters" := bo_params]>
  (<["reasoning" := VStr reason]> ∅)))).

Section Decide.
(** How an f-string renders an interpolated value ([format(v, "")]); the
    text of a double is the shortest decimal that reads back as it, which
    is not modelled. *)
Variable format_value : value → string.

Definition reason_high (nid : value) (maxu : pynum) (hp : value) (policy : string)
    : string :=
  format_value nid +:+ " has the highest uncertainty ("
  +:+ format_value (VNum maxu) +:+ ") and meets the "
  +:+ format_value (VNum MIN_BATTERY_PERCENT) +:+ "% battery minimum. "
  +:+ "It also has high harvest potential (" +:+ format_value hp
  +:+ "), justifying the energy-intensive " +:+ policy
  +:+ " policy to rapidly meet the mission goal.".

Definition reason_low (nid : value) (maxu : pynum) (policy : string) : string :=
  format_value nid +:+ " has the highest uncertainty ("
  +:+ format_value (VNum maxu) +:+ ") and meets the "
  +:+ format_value (VNum MIN_BATTERY_PERCENT) +:+ "% battery minimum. "
  +:+ "We are using the energy-efficient " +:+ policy
  +:+ " policy due to low ambient harvest potential.".

(** The decision point after the loop. *)
Definition decide_command (st : scan) : result (gmap string value) :=
  match best_candidate st with
  | Some best =>
      if dict_truthy best && py_gt (max_uncertainty st) (PyFloat 0.6) then
        high ← gt_num (dict_get best "harvest_potential" (VNum (PyInt 0))) (PyFloat 0.7);
        if (high : bool) then
          let policy := "SENSE_HIGH" in
          let bo_params := bo_params_high in
          nid ← subscript best "node_id";
          hp ← subscript best "harvest_potential";
          let reason := reason_high nid (max_uncertainty st) hp policy in
          target ← subscript best "node_id";
          Ok (wake_node target policy bo_params reason)
        else
          let policy := "SENSE_LOW" in
          let bo_params := bo_params_low in
          nid ← subscript best "node_id";
          let reason := reason_low nid (max_uncertainty st) policy in
          target ← subscript best "node_id";
          Ok (wake_node target policy bo_params reason)
      else Ok do_nothing
  | None => Ok do_nothing
  end.

(** [simulate_llm_api_call], from the parsed [network_state] on
    ([json.loads] itself is not modelled). [mission_goal] is not read. *)
Definition simulate_llm_api_call (network_state : list (gmap string value))
    (mission_goal : string) : result (gmap string value) :=
  st ← scan_loop scan_init network_state;
  decide_command st.

End Decide.

(** *** The network state of the [__main__] block

    The two snapshots [to_json] yields there, parsed. *)

Definition snapshot (nid : string) (battery_percent harvest data_unc : float)
    : gmap string value :=
  list_to_map
    [ ("node_id", VStr nid);
      ("battery_percent", VNum (PyFloat battery_percent));
      ("current_policy", VStr "SLEEP");
      ("harvest_potential", VNum (PyFloat harvest));
      ("data_uncertainty", VNum (PyFloat data_unc));
      ("max_capacity_joules", VNum (PyInt 3600)) ].

Definition Node_42 : gmap string value := snapshot "Node_42" 83.33 0.0 0.5.
Definition Node_11 : gmap string value := snapshot "Node_11" 27.78 0.9 0.8.

(** A rendering of interpolated values to run the examples with: strings as
    they are, anything else as a placeholder. *)
Definition format_plain (v : value) : string :=
  match v with
  | VStr s => s
  | _ => "<value>"
  end.

(** *** Vocabulary of the properties *)

(** Every battery-eligible snapshot of [seen] has a numeric uncertainty that
    does not exceed [bound], and those before position [i] do not reach it. *)
Definition dominated (seen : list (gmap string value)) (bound : pynum) (i : nat)
    : Prop :=
  ∀ (j : nat) (node : gmap string value),
    seen !! j = Some node →
    battery_ok node = Ok true →
    ∃ v, uncertainty node = VNum v ∧
         py_gt v bound = false ∧
         ((j < i)%nat → py_ge v bound = false).

(** What the loop variables say about the snapshots [seen] so far. *)
Definition scan_inv (seen : list (gmap string value)) (st : scan) : Prop :=
  match best_candidate st with
  | None =>
      max_uncertainty st = PyInt (-1) ∧ dominated seen (PyInt (-1)) 0
  | Some best =>
      ∃ i, seen !! i = Some best ∧
           battery_ok best = Ok true ∧
           uncertainty best = VNum (max_uncertainty st) ∧
           dominated seen (max_uncertainty st) i
  end.

(** What the loop variables were when the decision point returned a command:
    [DO_NOTHING] without a truthy candidate over the threshold; otherwise
    [WAKE_NODE], with the branch taken on the candidate's harvest. *)
Inductive decided (format_value : value → string) (st : scan) (cmd : gmap string value) : Prop :=
  | decided_nothing :
      match best_candidate st with
      | Some best => dict_truthy best && py_gt (max_uncertainty st) (PyFloat 0.6) = false
      | None => True
      end →
      cmd = do_nothing →
      decided format_value st cmd
  | decided_high (best : gmap string value) (h : pynum) (nid hp : value) :
      best_candidate st = Some best →
      py_gt (max_uncertainty st) (PyFloat 0.6) = true →
      dict_get best "harvest_potential" (VNum (PyInt 0)) = VNum h →
      py_gt h (PyFloat 0.7) = true →
      best !! "node_id" = Some nid →
      best !! "harvest_potential" = Some hp →
      cmd = wake_node nid "SENSE_HIGH" bo_params_high
              (reason_high format_value nid (max_uncertainty st) hp "SENSE_HIGH") →
      decided format_value st cmd
  | decided_low (best : gmap string value) (h : pynum) (nid : value) :
      best_candidate st = Some best →
      py_gt (max_uncertainty st) (PyFloat 0.6) = true →
      dict_get best "harvest_potential" (VNum (PyInt 0)) = VNum h →
      py_gt h (PyFloat 0.7) = false →
      best !! "node_id" = Some nid →
      cmd = wake_node nid "SENSE_LOW" bo_params_low
              (reason_low format_value nid (max_uncertainty st) "SENSE_LOW") →
      decided format_value st cmd.

(** The three fields read through [get(.., 0)]. *)
Definition NUMERIC_FIELDS : list string :=
  ["battery_percent"; "data_uncertainty"; "harvest_potential"].

(** A snapshot record the decision function is written for: it carries
    [node_id], and each numeric field it carries holds a number. *)
Definition well_formed (node : gmap string value) : Prop :=
  is_Some (node !! "node_id") ∧
  ∀ k, k ∈ NUMERIC_FIELDS →
       match node !! k with
       | Some (VNum _) | None => True
       | Some _ => False
       end.

(** [node] with the [int] 0 stored under [key] when it has no such key. *)
Definition with_default (key : string) (node : gmap string value)
    : gmap string value :=
  match node !! key with
  | Some _ => node
  | None => <[key := VNum (PyInt 0)]> node
  end.

(** [node] with every missing numeric field written out as 0. *)
Definition fill_defaults (node : gmap string value) : gmap string value :=
  with_default "battery_percent"
    (with_default "data_uncertainty"
       (with_default "harvest_potential" node)).

Definition fill_scan (st : scan) : scan :=
  {| best_candidate := fill_defaults <$> best_candidate st;
     max_uncertainty := max_uncertainty st |}.

(** *** [LLM_OUTPUT_SCHEMA]

    The schema dict, without its [description] annotations, and what it
    means for a JSON value to conform to it: [type], [required] and the
    schemas of the [properties] that are present ([number] excludes the
    booleans; other keys are allowed). *)
Inductive schema :=
  | SString
  | SNumber
  | SObject (properties : list (string * schema)) (required : list string).

Definition LLM_OUTPUT_SCHEMA : schema :=
  SObject
    [ ("action", SString);
      ("target_node_id", SString);
      ("new_policy", SString);
      ("bo_parameters",
         SObject [ ("sampling_interval_s", SNumber); ("tx_power_dbm", SNumber) ] []);
      ("reasoning", SString) ]
    LLM_OUTPUT_SCHEMA_required.

Fixpoint validates (s : schema) (v : value) {struct s} : bool :=
  match s with
  | SString => match v with VStr _ => true | _ => false end
  | SNumber =>
      match v with
      | VNum (PyInt _) | VNum (PyFloat _) => true
      | _ => false
      end
  | SObject properties required =>
      match v with
      | VDict d =>
          forallb (λ k, match d !! k with Some _ => true | None => false end) required
          && (fix each (ps : list (string * schema)) : bool :=
                match ps with
                | [] => true
                | (k, s') :: ps' =>
                    match d !! k with
                    | Some v' => validates s' v'
                    | None => true
                    end && each ps'
                end) properties
      | _ => false
      end
  end.

(** Once the scan has a candidate, [max_uncertainty] is above its initial
    -1. *)
Definition above_init (st : scan) : Prop :=
  match best_candidate st with
  | Some _ => py_lt (PyInt (-1)) (max_uncertainty st) = true
  | None => max_uncertainty st = PyInt (-1)
  end.

(** A record whose battery check answers [False]. *)
Definition ineligible (node : gmap string value) : bool :=
  match battery_ok node with
  | Ok false => true
  | _ => false
  end.

(** A record on which an iteration of the loop raises: its [battery_percent]
    is no number, or it is battery-eligible and its [data_uncertainty] is no
    number. *)
Definition ill_typed (node : gmap string value) : Prop :=
  battery_ok node = Raise TypeError ∨
  (battery_ok node = Ok true ∧ ∀ u, uncertainty node ≠ VNum u).

End LlmOrchestrator.

(** * Properties *)

(** ** The order of Python numbers *)

Module PyFacts.
Import Py.

Lemma exact_lt_le_trans (a b c : exact) :
  exact_compare a b = Some Lt →
  (exact_compare b c = Some Lt ∨ exact_compare b c = Some Eq) →
  exact_compare a c = Some Lt.
Proof.
  destruct a as [|sa|p], b as [|sb|q], c as [|sc|r]; simpl; intros Hpq Hqr;
    repeat match goal with s : bool |- _ => destruct s end;
    try done; try (by destruct Hqr).
  f_equal. apply Qlt_alt.
  injection Hpq as Hpq. apply Qlt_alt in Hpq.
  destruct Hqr as [Hqr|Hqr]; injection Hqr as Hqr.
  - apply Qlt_alt in Hqr. by apply Qlt_trans with q.
  - apply Qeq_alt in Hqr. by rewrite <- Hqr.
Qed.

Lemma exact_compare_antisym (a b : exact) :
  exact_compare b a = CompOpp <$> exact_compare a b.
Proof.
  destruct a as [|sa|p], b as [|sb|q]; simpl; try done;
    try (by destruct sa); try (by destruct sb); try (by destruct sa, sb).
  by rewrite Qcompare_antisym.
Qed.

Lemma exact_lt_irrefl (a : exact) : exact_compare a a ≠ Some Lt.
Proof.
  destruct a as [|s|p]; simpl; try done.
  - by destruct s.
  - intros [= H]. apply Qlt_alt in H. by apply Qlt_irrefl in H.
Qed.

Lemma exact_le_not_gt (a b : exact) :
  (exact_compare a b = Some Lt ∨ exact_compare a b = Some Eq) →
  exact_compare b a ≠ Some Lt.
Proof.
  intros Hab Hba.
  apply (exact_lt_irrefl b). by apply exact_lt_le_trans with a.
Qed.

(** [a < b] and [b <= c] give [a < c]. *)
Lemma py_lt_le_trans (a b c : pynum) :
  py_lt a b = true → py_le b c = true → py_lt a c = true.
Proof.
  unfold py_lt, py_le. intros Hab Hbc.
  rewrite (exact_lt_le_trans (num_exact a) (num_exact b) (num_exact c)); [done| |].
  - by destruct (exact_compare _ (num_exact b)) as [[]|].
  - destruct (exact_compare (num_exact b) _) as [[]|]; auto; done.
Qed.

Lemma py_lt_le (a b : pynum) : py_lt a b = true → py_le a b = true.
Proof. unfold py_lt, py_le. by destruct (exact_compare _ _) as [[]|]. Qed.

Lemma py_lt_irrefl (a : pynum) : py_lt a a = false.
Proof.
  unfold py_lt. pose proof (exact_lt_irrefl (num_exact a)).
  by destruct (exact_compare _ _) as [[]|].
Qed.

(** [a <= b] excludes [a > b]. *)
Lemma py_le_not_gt (a b : pynum) : py_le a b = true → py_gt a b = false.
Proof.
  unfold py_gt. intros Hab. destruct (py_lt b a) eqn:Hba; [|done].
  pose proof (py_lt_le_trans _ _ _ Hba Hab) as H.
  by rewrite py_lt_irrefl in H.
Qed.

(** [a >= b] excludes [a < b]. *)
Lemma py_ge_not_lt (a b : pynum) : py_ge a b = true → py_lt a b = false.
Proof. apply py_le_not_gt. Qed.

(** [a == b] gives [a >= b]. *)
Lemma py_eq_ge (a b : pynum) : py_eq a b = true → py_ge a b = true.
Proof.
  unfold py_eq, py_ge, py_le.
  rewrite (exact_compare_antisym (num_exact a) (num_exact b)).
  by destruct (exact_compare (num_exact a) _) as [[]|].
Qed.

Lemma py_eq_le (a b : pynum) : py_eq a b = true → py_le a b = true.
Proof. unfold py_eq, py_le. by destruct (exact_compare _ _) as [[]|]. Qed.

Lemma py_gt_ge (a b : pynum) : py_gt a b = true → py_ge a b = true.
Proof. apply py_lt_le. Qed.

End PyFacts.

(** ** Doubles compared by value

    The hardware comparison of two doubles is the comparison of their exact
    values: [py_lt], [py_le] and [py_eq] on [float]s are [<?], [<=?] and [=?]. *)

Module FloatOrder.
Import Py.

Lemma two_power_pos (e : Z) : Qlt 0 (Qpower (2 # 1) e).
Proof. by apply Qpower_0_lt. Qed.

Lemma mag_pos (m : positive) (e : Z) : Qlt 0 (mag m e).
Proof.
  unfold mag. apply Qmult_lt_0_compat; [|apply two_power_pos].
  change 0%Q with (inject_Z 0). rewrite <- Zlt_Qlt. lia.
Qed.

Lemma digits2_pos_bounds (m : positive) :
  2 ^ (Z.pos (digits2_pos m) - 1) ≤ Z.pos m < 2 ^ Z.pos (digits2_pos m).
Proof.
  induction m as [p IH|p IH|]; cbn [digits2_pos].
  - rewrite Pos2Z.inj_succ.
    replace (Z.succ (Z.pos (digits2_pos p)) - 1) with (Z.succ (Z.pos (digits2_pos p) - 1)) by lia.
    rewrite !Z.pow_succ_r by lia. lia.
  - rewrite Pos2Z.inj_succ.
    replace (Z.succ (Z.pos (digits2_pos p)) - 1) with (Z.succ (Z.pos (digits2_pos p) - 1)) by lia.
    rewrite !Z.pow_succ_r by lia. lia.
  - cbn. lia.
Qed.

(** What [bounded] says of a mantissa and exponent: at most 53 bits, and
    exactly 53 unless the exponent is the least one. *)
Lemma bounded_inv (m : positive) (e : Z) :
  bounded prec emax m e = true →
  Z.pos m < 2 ^ 53 ∧ (2 ^ 52 ≤ Z.pos m ∨ e = -1074) ∧ -1074 ≤ e.
Proof.
  unfold bounded, canonical_mantissa, fexp, emin, prec, emax.
  intros [Hc _]%andb_prop. apply Z.eqb_eq in Hc.
  pose proof (digits2_pos_bounds m) as [Hlo Hhi].
  set (d := Z.pos (digits2_pos m)) in *.
  assert (d ≤ 53 ∧ (d = 53 ∨ e = -1074) ∧ -1074 ≤ e) as (Hd & Hn & He) by lia.
  split_and!; [|destruct Hn as [Hn|]; [left|by right]|done].
  - eapply Z.lt_le_trans; [exact Hhi|]. apply Z.pow_le_mono_r; lia.
  - rewrite Hn in Hlo. exact Hlo.
Qed.

(** [m * 2^e2] as an integer multiple of [2^e1], for [e1 <= e2]. *)
Lemma mag_rescale (m : positive) (e1 e2 : Z) :
  e1 ≤ e2 →
  Qeq (mag m e2) (Qmult (inject_Z (Z.pos m * 2 ^ (e2 - e1))) (Qpower (2 # 1) e1)).
Proof.
  intros Hle. unfold mag.
  replace e2 with ((e2 - e1) + e1) at 1 by lia.
  rewrite Qpower_plus by done.
  rewrite inject_Z_mult, (Zpower_Qpower 2 (e2 - e1)) by lia.
  change (inject_Z 2) with (2 # 1). by rewrite Qmult_assoc.
Qed.

(** Of two valid magnitudes, the one with the smaller exponent is smaller. *)
Lemma mag_lt_exponent (m1 m2 : positive) (e1 e2 : Z) :
  bounded prec emax m1 e1 = true →
  bounded prec emax m2 e2 = true →
  e1 < e2 →
  Qlt (mag m1 e1) (mag m2 e2).
Proof.
  intros (H1 & _ & He1)%bounded_inv (_ & H2 & _)%bounded_inv Hlt.
  rewrite (mag_rescale m2 e1 e2) by lia. unfold mag.
  apply Qmult_lt_r; [apply two_power_pos|].
  rewrite <- Zlt_Qlt. destruct H2 as [H2|]; [|lia].
  assert (2 ^ 1 ≤ 2 ^ (e2 - e1)) by (apply Z.pow_le_mono_r; lia).
  change (2 ^ 1) with 2 in *. nia.
Qed.

Lemma mag_compare (m1 m2 : positive) (e1 e2 : Z) :
  bounded prec emax m1 e1 = true →
  bounded prec emax m2 e2 = true →
  Qcompare (mag m1 e1) (mag m2 e2) =
  match e1 ?= e2 with
  | Eq => Pos.compare_cont Eq m1 m2
  | Lt => Lt
  | Gt => Gt
  end.
Proof.
  intros Hb1 Hb2. destruct (Z.compare_spec e1 e2) as [<-|Hlt|Hgt].
  - change (Pos.compare_cont Eq m1 m2) with (Pos.compare m1 m2).
    destruct (Pos.compare_spec m1 m2) as [<-|Hm|Hm].
    + by apply Qeq_alt.
    + apply Qlt_alt. unfold mag. apply Qmult_lt_r; [apply two_power_pos|].
      rewrite <- Zlt_Qlt. lia.
    + apply Qgt_alt. unfold mag. apply Qmult_lt_r; [apply two_power_pos|].
      rewrite <- Zlt_Qlt. lia.
  - apply Qlt_alt. by apply mag_lt_exponent.
  - apply Qgt_alt. by apply mag_lt_exponent.
Qed.

(** The exact value of a finite double, by sign. *)
Lemma finite_value (s : bool) (m : positive) (e : Z) :
  Qeq (Qmult (inject_Z (if s then Z.neg m else Z.pos m)) (Qpower (2 # 1) e))
      (if s then Qopp (mag m e) else mag m e).
Proof.
  destruct s; [|done]. unfold mag.
  change (Z.neg m) with (- Z.pos m). rewrite inject_Z_opp. ring.
Qed.

Lemma Qcompare_opp (p q : Q) : Qcompare (Qopp p) (Qopp q) = CompOpp (Qcompare p q).
Proof.
  destruct (Qcompare_spec p q) as [Heq|Hlt|Hgt]; cbn.
  - apply Qeq_alt. by rewrite Heq.
  - apply Qgt_alt. by apply Qopp_lt_compat.
  - apply Qlt_alt. by apply Qopp_lt_compat.
Qed.

Lemma neg_mag_lt_0 (m : positive) (e : Z) : Qlt (Qopp (mag m e)) 0.
Proof. change 0%Q with (Qopp 0). apply Qopp_lt_compat, mag_pos. Qed.

Lemma SFcompare_exact (x y : spec_float) :
  valid_binary x = true → valid_binary y = true →
  SFcompare x y = exact_compare (sf_exact x) (sf_exact y).
Proof.
  destruct x as [sx|sx| |sx mx ex], y as [sy|sy| |sy my ey]; cbn; try done.
  - (* zero against finite *)
    intros _ _. f_equal. rewrite finite_value. destruct sy; symmetry.
    + apply Qgt_alt, neg_mag_lt_0.
    + apply Qlt_alt, mag_pos.
  - (* finite against zero *)
    intros _ _. f_equal. rewrite finite_value. destruct sx; symmetry.
    + apply Qlt_alt, neg_mag_lt_0.
    + apply Qgt_alt, mag_pos.
  - (* finite against finite *)
    intros Hx Hy. f_equal. rewrite !finite_value.
    destruct sx, sy.
    + rewrite Qcompare_opp, (mag_compare mx my ex ey Hx Hy).
      by destruct (ex ?= ey).
    + symmetry. apply Qlt_alt.
      apply Qlt_trans with 0%Q; [apply neg_mag_lt_0|apply mag_pos].
    + symmetry. apply Qgt_alt.
      apply Qlt_trans with 0%Q; [apply neg_mag_lt_0|apply mag_pos].
    + by rewrite (mag_compare mx my ex ey Hx Hy).
Qed.

Lemma float_compare_exact (x y : float) :
  SFcompare (Prim2SF x) (Prim2SF y) = exact_compare (float_exact x) (float_exact y).
Proof. apply SFcompare_exact; apply Prim2SF_valid. Qed.

(** [py_lt], [py_le] and [py_eq] on two [float]s are the comparisons of the
    doubles. *)
Lemma py_lt_float (x y : float) : py_lt (PyFloat x) (PyFloat y) = (x <? y)%float.
Proof.
  rewrite ltb_spec. unfold py_lt, SFltb. cbn [num_exact].
  by rewrite float_compare_exact.
Qed.

Lemma py_le_float (x y : float) : py_le (PyFloat x) (PyFloat y) = (x <=? y)%float.
Proof.
  rewrite leb_spec. unfold py_le, SFleb. cbn [num_exact].
  by rewrite float_compare_exact.
Qed.

Lemma py_eq_float (x y : float) : py_eq (PyFloat x) (PyFloat y) = (x =? y)%float.
Proof.
  rewrite FloatAxioms.eqb_spec. unfold py_eq, SFeqb. cbn [num_exact].
  by rewrite float_compare_exact.
Qed.

(** Finite values that are equal as rationals compare alike. *)
Lemma exact_compare_Qeq_r (a : exact) (p q : Q) :
  Qeq p q → exact_compare a (EFin p) = exact_compare a (EFin q).
Proof.
  intros Hpq. destruct a as [|s|r]; cbn; try done.
  f_equal. by apply Qcompare_comp.
Qed.

(** The two [int] bounds of the clamp in [update_state] compare with a
    [float] as the doubles 0.0 and 3600.0 do. *)
Lemma py_lt_int_3600 (x : float) :
  py_lt (PyFloat x) (PyInt 3600) = (x <? 3600)%float.
Proof.
  rewrite <- py_lt_float. unfold py_lt. cbn [num_exact].
  by rewrite (exact_compare_Qeq_r _ (inject_Z 3600)
                (Qmult (inject_Z 7916483719987200) (Qpower (2 # 1) (-41)))).
Qed.

Lemma py_gt_int_0 (x : float) :
  py_gt (PyFloat x) (PyInt 0) = (0 <? x)%float.
Proof.
  rewrite <- py_lt_float. by unfold py_gt, py_lt.
Qed.

End FloatOrder.

(** ** node_simulator.py *)

Module NodeSimulatorSpec.
Import Py NodeSimulator.

(** *** Comparisons of doubles *)

Lemma ltb_leb (x y : float) : (x <? y)%float = true → (x <=? y)%float = true.
Proof.
  rewrite ltb_spec, leb_spec. unfold SFltb, SFleb.
  destruct (SFcompare _ _) as [[]|]; done.
Qed.

(** The clamp [max(0, min(MAX_CAPACITY, x))] lands in range for every
    double [x], [nan] and the infinities included. *)
Lemma clamp_in_range (x : float) :
  battery_in_range (py_max 0 (py_min MAX_CAPACITY x)) = true.
Proof.
  unfold battery_in_range, py_max, py_min.
  destruct (x <? MAX_CAPACITY)%float eqn:Hhi.
  - destruct (0 <? x)%float eqn:Hlo.
    + by rewrite (ltb_leb _ _ Hlo), (ltb_leb _ _ Hhi).
    + reflexivity.
  - reflexivity.
Qed.

(** [SFcompare] answers [Eq] in both directions or in neither. *)
Lemma SFcompare_Eq_sym (x y : spec_float) :
  SFcompare x y = Some Eq → SFcompare y x = Some Eq.
Proof.
  destruct x as [sx|sx| |sx mx ex], y as [sy|sy| |sy my ey]; simpl;
    try done; try (by destruct sx); try (by destruct sy).
  - by destruct sx, sy.
  - destruct sx, sy; try done;
      destruct (ex ?= ey) eqn:He; try done;
      apply Z.compare_eq in He; subst ey;
      destruct (Pos.compare_cont Eq mx my) eqn:Hm; try done;
      apply Pos.compare_eq in Hm; subst my;
      intros _; by rewrite Z.compare_refl, Pos.compare_cont_refl.
Qed.

Lemma SFcompare_refl (x : spec_float) :
  x ≠ S754_nan → SFcompare x x = Some Eq.
Proof.
  destruct x as [s|s| |s m e]; simpl; try done.
  - by destruct s.
  - intros _. rewrite Z.compare_refl, Pos.compare_cont_refl. by destruct s.
Qed.

(** [x <= y] and not [x < y]: the two are equal as numbers. *)
Lemma leb_not_ltb_eqb (x y : float) :
  (x <=? y)%float = true → (x <? y)%float = false → (x =? y)%float = true.
Proof.
  rewrite leb_spec, ltb_spec, FloatAxioms.eqb_spec. unfold SFleb, SFltb, SFeqb.
  destruct (SFcompare _ _) as [[]|]; done.
Qed.

Lemma eqb_sym (x y : float) : (x =? y)%float = true → (y =? x)%float = true.
Proof.
  rewrite !FloatAxioms.eqb_spec. unfold SFeqb.
  destruct (SFcompare (Prim2SF x) _) as [[]|] eqn:H; try done.
  by rewrite (SFcompare_Eq_sym _ _ H).
Qed.

(** A double that compares [<=] with anything is not [nan], so it equals
    itself. *)
Lemma leb_eqb_refl (x y : float) : (x <=? y)%float = true → (x =? x)%float = true.
Proof.
  rewrite leb_spec, FloatAxioms.eqb_spec. unfold SFleb, SFeqb. intros H.
  rewrite SFcompare_refl; [done|].
  intros Hn. rewrite Hn in H. done.
Qed.

(** Inside the bounds the clamp returns its argument, up to the sign of a
    zero and to [int] against [float] at the two bounds. *)
Lemma clamp_id (x : float) :
  (0 <=? x)%float = true → (x <=? MAX_CAPACITY)%float = true →
  (py_max 0 (py_min MAX_CAPACITY x) =? x)%float = true.
Proof.
  intros Hlo Hhi. unfold py_max, py_min.
  destruct (x <? MAX_CAPACITY)%float eqn:H1.
  - destruct (0 <? x)%float eqn:H0.
    + by apply (leb_eqb_refl x MAX_CAPACITY).
    + by apply leb_not_ltb_eqb.
  - change (0 <? MAX_CAPACITY)%float with true. cbn iota.
    apply eqb_sym. by apply leb_not_ltb_eqb.
Qed.

Lemma POWER_CONSUMPTION_SLEEP_eq : POWER_CONSUMPTION_SLEEP = 0.00001%float.
Proof. reflexivity. Qed.

(** C4: after [update_state] the battery lies in [[0, MAX_CAPACITY]], for
    every duration (of either sign, finite or not) and every prior state. *)
Theorem update_state_battery_in_range
    (now : string) (self : IoTNodeSimulator) (duration_s : float) :
  let b := battery_joules (state (update_state now self duration_s)) in
  (0 <=? b)%float = true ∧ (b <=? MAX_CAPACITY)%float = true.
Proof.
  cbn zeta. apply andb_prop. apply clamp_in_range.
Qed.

(** C5, as stated, fails: the battery does not change by exactly the delta,
    because [battery_joules += energy_change] rounds. One second of [SLEEP]
    at night on 3000 joules: the duration is not negative and the sum
    3000 + delta lies within the bounds, yet the new battery minus the old
    one is not the delta [(0 * 0.005 - 0.00001) * 1], neither as the
    doubles' difference nor as the difference of their exact values. *)
Lemma update_state_change_is_rounded :
  let self := mkSim (mkNodeState "Node_42" 3000 "SLEEP" "t0" 0 0.5) 1 in
  let duration_s := 1%float in
  let consumption :=
    match POWER_CONSUMPTION !! current_policy (state self) with
    | Some watts => watts
    | None => 0.00001%float
    end in
  let delta :=
    ((harvest_potential (state self) * HARVEST_RATE_MAX - consumption)
     * duration_s)%float in
  let before := battery_joules (state self) in
  let after := battery_joules (state (update_state "t1" self duration_s)) in
  (0 <=? duration_s)%float = true ∧
  (0 <=? before + delta)%float = true ∧
  (before + delta <=? MAX_CAPACITY)%float = true ∧
  (after - before =? delta)%float = false ∧
  match float_exact after, float_exact before, float_exact delta with
  | EFin a, EFin b, EFin d => Qeq_bool (Qminus a b) d
  | _, _, _ => true
  end = false.
Proof. cbn zeta. split_and!; by vm_compute. Qed.

(** The same on a full battery and a nanosecond of [SLEEP]: the sum is
    within the bounds, the delta is not zero, and the battery does not
    change at all. *)
Example update_state_absorbs_small_change :
  let self := mkSim (mkNodeState "Node_42" 3600 "SLEEP" "t0" 0 0.5) 1 in
  let delta := ((0 * HARVEST_RATE_MAX - 0.00001) * 1e-9)%float in
  battery_in_range (3600 + delta) = true ∧
  (delta =? 0)%float = false ∧
  battery_joules (state (update_state "t1" self 1e-9)) = 3600%float.
Proof. cbn zeta. split_and!; by vm_compute. Qed.

(** C5, amended: when [battery_joules + (harvest_potential * HARVEST_RATE_MAX -
    consumption) * duration_s], computed in doubles as the program does,
    lies in [[0, MAX_CAPACITY]], [update_state] leaves the battery at that
    value; [consumption] is the table's entry for the current policy and
    the [SLEEP] rate, 0.00001, for a policy not in the table. It holds
    for every [duration_s], negative ones included. *)
Theorem update_state_unclamped
    (now : string) (self : IoTNodeSimulator) (duration_s : float) :
  let st := state self in
  let consumption :=
    match POWER_CONSUMPTION !! current_policy st with
    | Some watts => watts
    | None => 0.00001%float
    end in
  let delta :=
    ((harvest_potential st * HARVEST_RATE_MAX - consumption) * duration_s)%float in
  let unclamped := (battery_joules st + delta)%float in
  (0 <=? unclamped)%float = true →
  (unclamped <=? MAX_CAPACITY)%float = true →
  (battery_joules (state (update_state now self duration_s)) =? unclamped)%float = true.
Proof.
  cbn zeta. intros Hlo Hhi.
  unfold update_state, _calculate_power_change, dict_get. cbn [state battery_joules].
  rewrite POWER_CONSUMPTION_SLEEP_eq.
  by apply clamp_id.
Qed.

(** Witness of [update_state_unclamped]: a minute of [SENSE_HIGH] at night
    from a full battery. *)
Lemma update_state_unclamped_witness :
  let self := mkSim (mkNodeState "Node_42" 3600 "SENSE_HIGH" "t0" 0 0.5) 1 in
  (battery_joules (state (update_state "t1" self 60)) =? 3591)%float = true.
Proof.
  exact (update_state_unclamped "t1"
           (mkSim (mkNodeState "Node_42" 3600 "SENSE_HIGH" "t0" 0 0.5) 1) 60
           eq_refl eq_refl).
Defined.

(** *** [set_policy] *)

(** The keys of [POWER_CONSUMPTION] are the enumerated policies. *)
Lemma POWER_CONSUMPTION_keys (p : string) :
  is_Some (POWER_CONSUMPTION !! p) ↔ p ∈ POLICIES.
Proof.
  unfold POLICIES. rewrite !elem_of_cons, elem_of_nil. split.
  - intros [w Hw]. unfold POWER_CONSUMPTION in Hw.
    cbn [list_to_map foldr uncurry fst snd] in Hw.
    repeat (rewrite lookup_insert in Hw; destruct (decide _) as [<-|_]; [tauto|]).
    by rewrite lookup_empty in Hw.
  - intros Hp. destruct_or!; subst; try done; eexists; reflexivity.
Qed.

(** C7: [set_policy] with one of the enumerated policies replaces
    [current_policy] and nothing else; with any other string it leaves the
    simulator as it was. *)
Theorem set_policy_member_or_noop (self : IoTNodeSimulator) (new_policy : string) :
  (new_policy ∈ POLICIES →
     set_policy self new_policy =
       {| state :=
            {| node_id := node_id (state self);
               battery_joules := battery_joules (state self);
               current_policy := new_policy;
               last_wake_time := last_wake_time (state self);
               harvest_potential := harvest_potential (state self);
               data_uncertainty := data_uncertainty (state self) |};
          time_step := time_step self |}) ∧
  (new_policy ∉ POLICIES → set_policy self new_policy = self).
Proof.
  unfold set_policy. split; intros H.
  - apply POWER_CONSUMPTION_keys in H as [w ->]. reflexivity.
  - destruct (POWER_CONSUMPTION !! new_policy) as [w|] eqn:E; [|done].
    exfalso. apply H, POWER_CONSUMPTION_keys. by exists w.
Qed.

(** Witness of [set_policy_member_or_noop]: a policy of the table, and a
    string that is none. *)
Lemma set_policy_member_or_noop_witness :
  let self := init "t0" "Node_42" 3600 in
  current_policy (state (set_policy self "SENSE_HIGH")) = "SENSE_HIGH" ∧
  set_policy self "TURBO" = self.
Proof.
  cbn zeta. split.
  - rewrite (proj1 (set_policy_member_or_noop (init "t0" "Node_42" 3600) "SENSE_HIGH"));
      [reflexivity|]. unfold POLICIES. rewrite !elem_of_cons. auto 10.
  - apply (proj2 (set_policy_member_or_noop (init "t0" "Node_42" 3600) "TURBO")).
    unfold POLICIES. rewrite !elem_of_cons, elem_of_nil.
    intros Hin. by destruct_or!.
Defined.

(** *** [last_wake_time] *)

(** C9, as stated, fails: a [set_policy] call that changes the policy
    while the clock reads 00:01 leaves the stamp of 00:00 in place. *)
Lemma set_policy_keeps_old_stamp :
  let self := init "2026-01-01T00:00:00" "Node_42" 3600 in
  let self' := run "2026-01-01T00:01:00" self (SetPolicy "SENSE_HIGH") in
  current_policy (state self') ≠ current_policy (state self) ∧
  last_wake_time (state self') = "2026-01-01T00:00:00" ∧
  last_wake_time (state self') ≠ "2026-01-01T00:01:00".
Proof. cbn zeta. split_and!; done. Qed.

(** C9, amended: [update_state] stamps [last_wake_time] with the clock
    reading of the call; [set_policy] leaves the stamp as it was. *)
Theorem last_wake_time_stamped_by_update_state_only :
  (∀ now self duration_s,
     last_wake_time (state (run now self (UpdateState duration_s))) = now) ∧
  (∀ now self new_policy,
     last_wake_time (state (run now self (SetPolicy new_policy))) =
     last_wake_time (state self)).
Proof.
  split; [done|]. intros now self new_policy. cbn [run]. unfold set_policy.
  by destruct (POWER_CONSUMPTION !! new_policy).
Qed.

(** *** Construction *)

(** C10: the constructor stores [initial_capacity] as it is; a node can be
    built below 0 or above [MAX_CAPACITY]; whatever it was built with, the
    bound holds after one [update_state]. *)
Theorem init_battery_not_clamped :
  (∀ import_time nid initial_capacity,
     battery_joules (state (init import_time nid initial_capacity)) = initial_capacity) ∧
  battery_in_range (battery_joules (state (init "t0" "Node_42" (-1)))) = false ∧
  battery_in_range (battery_joules (state (init "t0" "Node_42" 7200))) = false ∧
  (∀ import_time nid initial_capacity now duration_s,
     battery_in_range
       (battery_joules
          (state (update_state now (init import_time nid initial_capacity) duration_s)))
     = true).
Proof.
  split_and!; try done. intros. apply clamp_in_range.
Qed.

End NodeSimulatorSpec.

(** ** llm_orchestrator.py *)

Module LlmOrchestratorSpec.
Import Py PyFacts LlmOrchestrator.

(** *** The scan *)

Lemma battery_ok_true (node : gmap string value) :
  battery_ok node = Ok true →
  ∃ b, dict_get node "battery_percent" (VNum (PyInt 0)) = VNum b ∧
       py_ge b MIN_BATTERY_PERCENT = true.
Proof.
  unfold battery_ok, ge_num.
  destruct (dict_get node "battery_percent" _) as [|b| | |]; try done.
  intros [= H]. by exists b.
Qed.

(** The cases of one iteration that does not raise. *)
Lemma scan_step_Ok (st st' : scan) (node : gmap string value) :
  scan_step st node = Ok st' →
  (battery_ok node = Ok false ∧ st' = st) ∨
  (battery_ok node = Ok true ∧
   ∃ u, uncertainty node = VNum u ∧
        ((py_gt u (max_uncertainty st) = false ∧ st' = st) ∨
         (py_gt u (max_uncertainty st) = true ∧
          st' = {| best_candidate := Some node; max_uncertainty := u |}))).
Proof.
  unfold scan_step. destruct (battery_ok node) as [[]|e]; cbn; [| |done].
  - destruct (uncertainty node) as [|u| | |]; try done.
    destruct (py_gt u (max_uncertainty st)) eqn:Hgt; intros [= <-];
      right; split; [done| |done|]; exists u; split; auto.
  - intros [= <-]. by left.
Qed.

Lemma dominated_nil (bound : pynum) (i : nat) : dominated [] bound i.
Proof. intros j node Hj. by rewrite lookup_nil in Hj. Qed.

(** A snapshot appended after position [i] only has to stay at or under the
    bound. *)
Lemma dominated_snoc (seen : list (gmap string value)) (bound : pynum) (i : nat)
    (node : gmap string value) :
  dominated seen bound i →
  (i ≤ length seen)%nat →
  (battery_ok node = Ok true →
   ∃ v, uncertainty node = VNum v ∧ py_gt v bound = false) →
  dominated (seen ++ [node]) bound i.
Proof.
  intros Hdom Hi Hnode j n Hj Hok.
  destruct (decide (j < length seen)%nat) as [Hlt|Hge].
  - rewrite lookup_app_l in Hj by done. by apply (Hdom j).
  - rewrite lookup_app_r in Hj by lia.
    apply list_lookup_singleton_Some in Hj as [_ <-]. destruct (Hnode Hok) as (v & Hv & Hgt).
    exists v. split_and!; [done..|]. intros ?. lia.
Qed.

(** A new strict maximum at the end dominates everything seen before. *)
Lemma dominated_raise (seen : list (gmap string value)) (bound u : pynum) (i : nat)
    (node : gmap string value) :
  dominated seen bound i →
  uncertainty node = VNum u →
  py_gt u bound = true →
  dominated (seen ++ [node]) u (length seen).
Proof.
  intros Hdom Hu Hgt j n Hj Hok.
  destruct (decide (j < length seen)%nat) as [Hlt|Hge].
  - rewrite lookup_app_l in Hj by done.
    destruct (Hdom j n Hj Hok) as (v & Hv & Hvb & _).
    assert (py_ge v u = false) as Hge.
    { destruct (py_ge v u) eqn:E; [|done].
      unfold py_gt in Hvb. by rewrite (py_lt_le_trans bound u v) in Hvb. }
    exists v. split_and!; [done| |done].
    destruct (py_gt v u) eqn:E; [|done]. by rewrite (py_gt_ge _ _ E) in Hge.
  - rewrite lookup_app_r in Hj by lia.
    apply list_lookup_singleton_Some in Hj as [_ <-]. exists u. split_and!; [done| |lia].
    apply py_lt_irrefl.
Qed.

Lemma scan_inv_init : scan_inv [] scan_init.
Proof. split; [done|]. apply dominated_nil. Qed.

(** One iteration keeps the invariant. *)
Lemma scan_inv_step (seen : list (gmap string value)) (st st' : scan)
    (node : gmap string value) :
  scan_inv seen st →
  scan_step st node = Ok st' →
  scan_inv (seen ++ [node]) st'.
Proof.
  intros Hinv Hstep.
  apply scan_step_Ok in Hstep as [[Hno ->]|(Hok & u & Hu & [[Hle ->]|[Hgt ->]])].
  - unfold scan_inv in *. destruct (best_candidate st) as [best|].
    + destruct Hinv as (i & Hi & Hb & Hbu & Hdom).
      exists i. split_and!; [|done..|].
      * rewrite lookup_app_l; [done|]. by eapply lookup_lt_Some.
      * apply dominated_snoc; [done| |congruence].
        apply Nat.lt_le_incl. by eapply lookup_lt_Some.
    + destruct Hinv as [Hm Hdom]. split; [done|].
      apply dominated_snoc; [done|lia|congruence].
  - unfold scan_inv in *. destruct (best_candidate st) as [best|].
    + destruct Hinv as (i & Hi & Hb & Hbu & Hdom).
      exists i. split_and!; [|done..|].
      * rewrite lookup_app_l; [done|]. by eapply lookup_lt_Some.
      * apply dominated_snoc; [done| |by exists u].
        apply Nat.lt_le_incl. by eapply lookup_lt_Some.
    + destruct Hinv as [Hm Hdom]. split; [done|].
      apply dominated_snoc; [done|lia|]. intros _. exists u. by rewrite <- Hm.
  - unfold scan_inv in *. cbn [best_candidate max_uncertainty].
    exists (length seen). split_and!; [|done..|].
    + rewrite lookup_app_r by lia. by rewrite Nat.sub_diag.
    + destruct (best_candidate st) as [best|].
      * destruct Hinv as (i & _ & _ & _ & Hdom). by eapply dominated_raise.
      * destruct Hinv as [Hm Hdom]. rewrite Hm in Hgt. by eapply dominated_raise.
Qed.

(** So does the rest of the loop. *)
Lemma scan_inv_loop (rest seen : list (gmap string value)) (st st' : scan) :
  scan_inv seen st →
  scan_loop st rest = Ok st' →
  scan_inv (seen ++ rest) st'.
Proof.
  revert seen st. induction rest as [|node rest IH]; intros seen st Hinv; cbn.
  - intros [= <-]. by rewrite app_nil_r.
  - destruct (scan_step st node) as [st1|e] eqn:Hstep; cbn; [|done].
    intros Hloop. rewrite cons_middle, app_assoc.
    apply (IH _ st1); [|done]. by apply scan_inv_step with st.
Qed.

(** C1: when the scan of [simulate_llm_api_call] ends with a candidate, it is
    a snapshot of the input, at some position [i], whose [battery_percent] is
    a number at or above 20.0 (so not below it); [max_uncertainty] is its
    [data_uncertainty]; no battery-eligible snapshot has a greater
    [data_uncertainty], and none before position [i] has an equal one. *)
Theorem scan_selects_first_eligible_maximum
    (network_state : list (gmap string value)) (st : scan)
    (best : gmap string value) :
  scan_loop scan_init network_state = Ok st →
  best_candidate st = Some best →
  ∃ (i : nat) (b u : pynum),
    network_state !! i = Some best ∧
    dict_get best "battery_percent" (VNum (PyInt 0)) = VNum b ∧
    py_ge b (PyFloat 20.0) = true ∧
    py_lt b (PyFloat 20.0) = false ∧
    dict_get best "data_uncertainty" (VNum (PyInt 0)) = VNum u ∧
    max_uncertainty st = u ∧
    ∀ (j : nat) (node : gmap string value),
      network_state !! j = Some node →
      battery_ok node = Ok true →
      ∃ v, dict_get node "data_uncertainty" (VNum (PyInt 0)) = VNum v ∧
           py_gt v u = false ∧
           ((j < i)%nat → py_ge v u = false ∧ py_eq v u = false).
Proof.
  intros Hloop Hbest.
  pose proof (scan_inv_loop network_state [] scan_init st scan_inv_init Hloop) as Hinv.
  unfold scan_inv in Hinv. rewrite Hbest in Hinv. cbn [app] in Hinv.
  destruct Hinv as (i & Hi & Hok & Hu & Hdom).
  destruct (battery_ok_true best Hok) as (b & Hb & Hge).
  exists i, b, (max_uncertainty st). split_and!; try done.
  - by apply py_ge_not_lt.
  - intros j node Hj Hjok. destruct (Hdom j node Hj Hjok) as (v & Hv & Hgt & Hlt).
    exists v. split_and!; [done..|]. intros Hji. specialize (Hlt Hji).
    split; [done|]. destruct (py_eq v (max_uncertainty st)) eqn:E; [|done].
    by rewrite (py_eq_ge _ _ E) in Hlt.
Qed.

(** Witness of [scan_selects_first_eligible_maximum]: the network state of
    the [__main__] block, whose scan ends on [Node_11]. *)
Lemma scan_selects_first_eligible_maximum_witness :
  ∃ (i : nat) (b u : pynum),
    [Node_42; Node_11] !! i = Some Node_11 ∧
    dict_get Node_11 "battery_percent" (VNum (PyInt 0)) = VNum b ∧
    py_ge b (PyFloat 20.0) = true ∧
    py_lt b (PyFloat 20.0) = false ∧
    dict_get Node_11 "data_uncertainty" (VNum (PyInt 0)) = VNum u ∧
    PyFloat 0.8 = u ∧
    ∀ (j : nat) (node : gmap string value),
      [Node_42; Node_11] !! j = Some node →
      battery_ok node = Ok true →
      ∃ v, dict_get node "data_uncertainty" (VNum (PyInt 0)) = VNum v ∧
           py_gt v u = false ∧
           ((j < i)%nat → py_ge v u = false ∧ py_eq v u = false).
Proof.
  exact (scan_selects_first_eligible_maximum [Node_42; Node_11]
           {| best_candidate := Some Node_11; max_uncertainty := PyFloat 0.8 |}
           Node_11 eq_refl eq_refl).
Defined.

(** Equal uncertainty does not replace the candidate: an iteration on a
    snapshot whose [data_uncertainty] equals [max_uncertainty] leaves the loop
    variables as they were. *)
Lemma scan_step_tie (st st' : scan) (node : gmap string value) (u : pynum) :
  uncertainty node = VNum u →
  py_eq u (max_uncertainty st) = true →
  scan_step st node = Ok st' →
  st' = st.
Proof.
  intros Hu Heq Hstep.
  apply scan_step_Ok in Hstep as [[_ ->]|(_ & u' & Hu' & [[_ ->]|[Hgt _]])]; try done.
  rewrite Hu in Hu'. injection Hu' as <-.
  apply py_eq_le in Heq. by rewrite (py_le_not_gt _ _ Heq) in Hgt.
Qed.

(** *** The decision point *)

(** Case analysis on [k ∈ [k1; ..; kn]] for a list written out. *)
Ltac key_cases H :=
  repeat (apply elem_of_cons in H as [->|H]); [..|by apply elem_of_nil in H].

Section Decision.
Variable format_value : value → string.

(** The fields of the two shapes of command. *)
Lemma do_nothing_fields :
  do_nothing !! "action" = Some (VStr "DO_NOTHING") ∧
  do_nothing !! "reasoning" = Some (VStr DO_NOTHING_reasoning) ∧
  do_nothing !! "target_node_id" = None ∧
  do_nothing !! "new_policy" = None ∧
  do_nothing !! "bo_parameters" = None.
Proof. split_and!; reflexivity. Qed.

Lemma wake_node_fields (target : value) (policy : string) (bo_params : value)
    (reason : string) :
  let cmd := wake_node target policy bo_params reason in
  cmd !! "action" = Some (VStr "WAKE_NODE") ∧
  cmd !! "reasoning" = Some (VStr reason) ∧
  cmd !! "target_node_id" = Some target ∧
  cmd !! "new_policy" = Some (VStr policy) ∧
  cmd !! "bo_parameters" = Some bo_params.
Proof. cbn zeta. unfold wake_node. split_and!; by simplify_map_eq. Qed.

Lemma decide_command_Ok (st : scan) (cmd : gmap string value) :
  decide_command format_value st = Ok cmd → decided format_value st cmd.
Proof.
  unfold decide_command.
  destruct (best_candidate st) as [best|] eqn:Hbest;
    [|intros [= <-]; apply decided_nothing; [by rewrite Hbest|done]].
  destruct (dict_truthy best && _) eqn:Hact;
    [|intros [= <-]; apply decided_nothing; [by rewrite Hbest|done]].
  apply andb_prop in Hact as [_ Hgt].
  unfold gt_num, subscript.
  destruct (dict_get best "harvest_potential" _) as [|h| | |] eqn:Hh; try done.
  cbn. destruct (py_gt h (PyFloat 0.7)) eqn:Hhigh.
  - destruct (best !! "node_id") as [nid|] eqn:Hnid; cbn; [|done].
    destruct (best !! "harvest_potential") as [hp|] eqn:Hhp; cbn; [|done].
    intros [= <-]. by eapply decided_high.
  - destruct (best !! "node_id") as [nid|] eqn:Hnid; cbn; [|done].
    intros [= <-]. by eapply decided_low.
Qed.

(** A call that returns went through the loop and the decision point. *)
Lemma simulate_Ok (network_state : list (gmap string value)) (mission_goal : string)
    (cmd : gmap string value) :
  simulate_llm_api_call format_value network_state mission_goal = Ok cmd →
  ∃ st, scan_loop scan_init network_state = Ok st ∧ decided format_value st cmd.
Proof.
  unfold simulate_llm_api_call.
  destruct (scan_loop scan_init network_state) as [st|e]; cbn; [|done].
  intros H. exists st. split; [done|]. by apply decide_command_Ok.
Qed.

(** *** The threshold gate *)

(** While every snapshot is ineligible or at most 0.6 uncertain, the loop
    does not raise and [max_uncertainty] stays at or under the threshold. *)
Lemma scan_loop_under_threshold (network_state : list (gmap string value))
    (st : scan) :
  Forall (λ node,
            battery_ok node = Ok false ∨
            (battery_ok node = Ok true ∧
             ∃ u, uncertainty node = VNum u ∧ py_le u (PyFloat 0.6) = true))
         network_state →
  py_gt (max_uncertainty st) (PyFloat 0.6) = false →
  ∃ st', scan_loop st network_state = Ok st' ∧
         py_gt (max_uncertainty st') (PyFloat 0.6) = false.
Proof.
  intros Hall. revert st.
  induction Hall as [|node rest Hnode _ IH]; intros st Hst; cbn.
  - by exists st.
  - unfold scan_step.
    destruct Hnode as [->|(-> & u & -> & Hu)]; cbn; [by apply IH|].
    destruct (py_gt u (max_uncertainty st)); apply IH; [|done].
    cbn. by apply py_le_not_gt.
Qed.

(** C2: when every snapshot is either not battery-eligible or has a
    [data_uncertainty] of at most 0.6 (none eligible, or the maximum eligible
    uncertainty at most 0.6), the call returns the [DO_NOTHING] command. *)
Theorem do_nothing_under_threshold (network_state : list (gmap string value))
    (mission_goal : string) :
  Forall (λ node,
            battery_ok node = Ok false ∨
            (battery_ok node = Ok true ∧
             ∃ u, dict_get node "data_uncertainty" (VNum (PyInt 0)) = VNum u ∧
                  py_le u (PyFloat 0.6) = true))
         network_state →
  ∃ cmd, simulate_llm_api_call format_value network_state mission_goal = Ok cmd ∧
         cmd !! "action" = Some (VStr "DO_NOTHING").
Proof.
  intros Hall.
  destruct (scan_loop_under_threshold network_state scan_init Hall eq_refl)
    as (st & Hloop & Hst).
  exists do_nothing. split; [|reflexivity].
  unfold simulate_llm_api_call. rewrite Hloop. cbn. unfold decide_command.
  destruct (best_candidate st) as [best|]; [|done].
  by rewrite Hst, andb_false_r.
Qed.

(** *** The harvest branch *)

(** C3: a [WAKE_NODE] command targets the candidate of the scan, and its
    policy and parameters follow that candidate's [harvest_potential] alone:
    above 0.7, [SENSE_HIGH] with 5.0 and 10.0; otherwise [SENSE_LOW] with 30.0
    and 5.0. *)
Theorem wake_policy_follows_harvest (network_state : list (gmap string value))
    (mission_goal : string) (cmd : gmap string value) :
  simulate_llm_api_call format_value network_state mission_goal = Ok cmd →
  cmd !! "action" = Some (VStr "WAKE_NODE") →
  ∃ (st : scan) (best : gmap string value) (h : pynum),
    scan_loop scan_init network_state = Ok st ∧
    best_candidate st = Some best ∧
    cmd !! "target_node_id" = best !! "node_id" ∧
    dict_get best "harvest_potential" (VNum (PyInt 0)) = VNum h ∧
    if py_gt h (PyFloat 0.7) then
      cmd !! "new_policy" = Some (VStr "SENSE_HIGH") ∧
      cmd !! "bo_parameters" =
        Some (VDict (<["sampling_interval_s" := VNum (PyFloat 5.0)]>
                     (<["tx_power_dbm" := VNum (PyFloat 10.0)]> ∅)))
    else
      cmd !! "new_policy" = Some (VStr "SENSE_LOW") ∧
      cmd !! "bo_parameters" =
        Some (VDict (<["sampling_interval_s" := VNum (PyFloat 30.0)]>
                     (<["tx_power_dbm" := VNum (PyFloat 5.0)]> ∅))).
Proof.
  intros Hcall Haction.
  apply simulate_Ok in Hcall as (st & Hloop & Hdec).
  destruct Hdec as [_ ->|best h nid hp Hbest _ Hh Hhigh Hnid _ ->
                         |best h nid Hbest _ Hh Hhigh Hnid ->].
  - done.
  - exists st, best, h. rewrite Hhigh, Hnid.
    pose proof (wake_node_fields nid "SENSE_HIGH" bo_params_high
                  (reason_high format_value nid (max_uncertainty st) hp "SENSE_HIGH"))
      as (_ & _ & Ht & Hp & Hbo).
    by split_and!.
  - exists st, best, h. rewrite Hhigh, Hnid.
    pose proof (wake_node_fields nid "SENSE_LOW" bo_params_low
                  (reason_low format_value nid (max_uncertainty st) "SENSE_LOW"))
      as (_ & _ & Ht & Hp & Hbo).
    by split_and!.
Qed.

(** *** The shape of the command *)

(** C8: a returned command always has [action] and [reasoning]; its action
    is [WAKE_NODE] or [DO_NOTHING]; each of [target_node_id], [new_policy] and
    [bo_parameters] is a key of it exactly when the action is [WAKE_NODE], and
    is no key at all when the action is [DO_NOTHING]. *)
Theorem command_fields (network_state : list (gmap string value))
    (mission_goal : string) (cmd : gmap string value) :
  simulate_llm_api_call format_value network_state mission_goal = Ok cmd →
  (∀ k, k ∈ LLM_OUTPUT_SCHEMA_required → is_Some (cmd !! k)) ∧
  (cmd !! "action" = Some (VStr "WAKE_NODE") ∨
   cmd !! "action" = Some (VStr "DO_NOTHING")) ∧
  (∀ k, k ∈ ["target_node_id"; "new_policy"; "bo_parameters"] →
        (is_Some (cmd !! k) ↔ cmd !! "action" = Some (VStr "WAKE_NODE"))) ∧
  (cmd !! "action" = Some (VStr "DO_NOTHING") →
   ∀ k, k ∈ ["target_node_id"; "new_policy"; "bo_parameters"] → cmd !! k = None).
Proof.
  intros Hcall. apply simulate_Ok in Hcall as (st & _ & Hdec).
  assert ((∃ target policy bo_params reason,
             cmd = wake_node target policy bo_params reason) ∨ cmd = do_nothing)
    as [(target & policy & bo_params & reason & ->)| ->].
  { destruct Hdec; subst; eauto 10. }
  - destruct (wake_node_fields target policy bo_params reason)
      as (Ha & Hr & Ht & Hp & Hbo).
    unfold LLM_OUTPUT_SCHEMA_required. split_and!.
    + intros k Hk. key_cases Hk; by eexists.
    + by left.
    + intros k Hk. key_cases Hk; (split; [done|intros _; by eexists]).
    + intros Hno. by rewrite Ha in Hno.
  - destruct do_nothing_fields as (Ha & Hr & Ht & Hp & Hbo).
    unfold LLM_OUTPUT_SCHEMA_required. split_and!.
    + intros k Hk. key_cases Hk; by eexists.
    + by right.
    + intros k Hk. key_cases Hk;
        (split; [intros [v Hv]; congruence|intros Hw; by rewrite Ha in Hw]).
    + intros _ k Hk. by key_cases Hk.
Qed.

End Decision.

(** Witness of [do_nothing_under_threshold]: the [__main__] network with
    [Node_11] at 15.0 percent (only [Node_42], at 0.5, is eligible), and the
    empty network. *)
Lemma do_nothing_under_threshold_witness :
  (∃ cmd,
     simulate_llm_api_call format_plain
       [Node_42; <["battery_percent" := VNum (PyFloat 15.0)]> Node_11]
       "Reduce the highest data uncertainty" = Ok cmd ∧
     cmd !! "action" = Some (VStr "DO_NOTHING")) ∧
  (∃ cmd,
     simulate_llm_api_call format_plain [] "Reduce the highest data uncertainty"
       = Ok cmd ∧
     cmd !! "action" = Some (VStr "DO_NOTHING")).
Proof.
  split; apply do_nothing_under_threshold.
  - apply List.Forall_cons; [|apply List.Forall_cons; [|apply List.Forall_nil]].
    + right. split; [reflexivity|]. exists (PyFloat 0.5). split; reflexivity.
    + left. reflexivity.
  - apply List.Forall_nil.
Defined.

(** Witness of [wake_policy_follows_harvest]: the [__main__] network wakes
    [Node_11], whose harvest potential is 0.9, with [SENSE_HIGH]. *)
Lemma wake_policy_follows_harvest_witness :
  ∃ (st : scan) (best : gmap string value) (h : pynum),
    scan_loop scan_init [Node_42; Node_11] = Ok st ∧
    best_candidate st = Some best ∧
    Some (VStr "Node_11") = best !! "node_id" ∧
    dict_get best "harvest_potential" (VNum (PyInt 0)) = VNum h ∧
    if py_gt h (PyFloat 0.7) then
      Some (VStr "SENSE_HIGH") = Some (VStr "SENSE_HIGH") ∧
      Some bo_params_high =
        Some (VDict (<["sampling_interval_s" := VNum (PyFloat 5.0)]>
                     (<["tx_power_dbm" := VNum (PyFloat 10.0)]> ∅)))
    else
      Some (VStr "SENSE_HIGH") = Some (VStr "SENSE_LOW") ∧
      Some bo_params_high =
        Some (VDict (<["sampling_interval_s" := VNum (PyFloat 30.0)]>
                     (<["tx_power_dbm" := VNum (PyFloat 5.0)]> ∅))).
Proof.
  exact (wake_policy_follows_harvest format_plain [Node_42; Node_11]
           "Reduce the highest data uncertainty"
           (wake_node (VStr "Node_11") "SENSE_HIGH" bo_params_high
              (reason_high format_plain (VStr "Node_11") (PyFloat 0.8)
                 (VNum (PyFloat 0.9)) "SENSE_HIGH"))
           eq_refl eq_refl).
Defined.

(** Witness of [command_fields]: the command for the [__main__] network. *)
Lemma command_fields_witness :
  ∃ cmd,
    simulate_llm_api_call format_plain [Node_42; Node_11]
      "Reduce the highest data uncertainty" = Ok cmd ∧
    (∀ k, k ∈ LLM_OUTPUT_SCHEMA_required → is_Some (cmd !! k)) ∧
    (cmd !! "action" = Some (VStr "WAKE_NODE") ∨
     cmd !! "action" = Some (VStr "DO_NOTHING")) ∧
    (∀ k, k ∈ ["target_node_id"; "new_policy"; "bo_parameters"] →
          (is_Some (cmd !! k) ↔ cmd !! "action" = Some (VStr "WAKE_NODE"))) ∧
    (cmd !! "action" = Some (VStr "DO_NOTHING") →
     ∀ k, k ∈ ["target_node_id"; "new_policy"; "bo_parameters"] → cmd !! k = None).
Proof.
  eexists. split; [reflexivity|].
  exact (command_fields format_plain [Node_42; Node_11]
           "Reduce the highest data uncertainty" _ eq_refl).
Defined.

(** *** Exceptions *)

(** C6, as stated, fails: a record that carries the three numeric fields but
    no [node_id], eligible and uncertain enough to be woken, makes the call
    raise [KeyError] where the reasoning reads [best_candidate['node_id']]. *)
Lemma missing_node_id_raises :
  simulate_llm_api_call format_plain
    [ list_to_map
        [ ("battery_percent", VNum (PyFloat 50.0));
          ("harvest_potential", VNum (PyFloat 0.3));
          ("data_uncertainty", VNum (PyFloat 0.75)) ] ]
    "Reduce the highest data uncertainty"
  = Raise (KeyError "node_id").
Proof. reflexivity. Qed.

(** [with_default] and [fill_defaults] against [get(.., 0)] and lookups. *)
Lemma with_default_get (key k : string) (node : gmap string value) :
  dict_get (with_default key node) k (VNum (PyInt 0)) =
  dict_get node k (VNum (PyInt 0)).
Proof.
  unfold with_default, dict_get.
  destruct (node !! key) as [v|] eqn:Hkey; [done|].
  destruct (decide (key = k)) as [<-|Hne].
  - by rewrite lookup_insert_eq, Hkey.
  - by rewrite lookup_insert_ne.
Qed.

Lemma with_default_lookup_Some (key k : string) (node : gmap string value)
    (v : value) :
  node !! k = Some v → with_default key node !! k = Some v.
Proof.
  intros Hk. unfold with_default.
  destruct (node !! key) as [w|] eqn:Hkey; [done|].
  rewrite lookup_insert_ne; [done|]. intros <-. congruence.
Qed.

Lemma with_default_lookup_ne (key k : string) (node : gmap string value) :
  key ≠ k → with_default key node !! k = node !! k.
Proof.
  intros Hne. unfold with_default.
  destruct (node !! key); [done|]. by rewrite lookup_insert_ne.
Qed.

Lemma fill_defaults_get (k : string) (node : gmap string value) :
  dict_get (fill_defaults node) k (VNum (PyInt 0)) =
  dict_get node k (VNum (PyInt 0)).
Proof. unfold fill_defaults. by rewrite !with_default_get. Qed.

Lemma fill_defaults_lookup_Some (k : string) (node : gmap string value)
    (v : value) :
  node !! k = Some v → fill_defaults node !! k = Some v.
Proof.
  intros Hk. unfold fill_defaults. by do 3 apply with_default_lookup_Some.
Qed.

Lemma fill_defaults_node_id (node : gmap string value) :
  fill_defaults node !! "node_id" = node !! "node_id".
Proof. unfold fill_defaults. by rewrite !with_default_lookup_ne. Qed.

Lemma battery_ok_fill (node : gmap string value) :
  battery_ok (fill_defaults node) = battery_ok node.
Proof. unfold battery_ok. by rewrite fill_defaults_get. Qed.

Lemma uncertainty_fill (node : gmap string value) :
  uncertainty (fill_defaults node) = uncertainty node.
Proof. apply fill_defaults_get. Qed.

(** A battery-eligible record has a [battery_percent] key: it is a truthy
    [dict]. *)
Lemma eligible_truthy (node : gmap string value) :
  battery_ok node = Ok true → dict_truthy node = true.
Proof.
  intros Hok. unfold dict_truthy. destruct (decide (node = ∅)) as [->|]; [|done].
  discriminate Hok.
Qed.

(** The loop on filled records runs as on the records themselves. *)
Lemma scan_step_fill (st : scan) (node : gmap string value) :
  scan_step (fill_scan st) (fill_defaults node) =
  match scan_step st node with
  | Ok st' => Ok (fill_scan st')
  | Raise e => Raise e
  end.
Proof.
  unfold scan_step. rewrite battery_ok_fill, uncertainty_fill.
  destruct (battery_ok node) as [[]|e]; cbn; try done.
  destruct (uncertainty node) as [|u| | |]; try done.
  by destruct (py_gt u (max_uncertainty st)).
Qed.

Lemma scan_loop_fill (network_state : list (gmap string value)) (st : scan) :
  scan_loop (fill_scan st) (fill_defaults <$> network_state) =
  match scan_loop st network_state with
  | Ok st' => Ok (fill_scan st')
  | Raise e => Raise e
  end.
Proof.
  revert st. induction network_state as [|node rest IH]; intros st; cbn; [done|].
  rewrite scan_step_fill. destruct (scan_step st node) as [st'|e]; cbn; [|done].
  apply IH.
Qed.

Section Defaults.
Variable format_value : value → string.

(** The decision point on a filled, eligible candidate decides as on the
    candidate itself. *)
Lemma decide_command_fill (st : scan) :
  match best_candidate st with
  | Some best => battery_ok best = Ok true
  | None => True
  end →
  decide_command format_value (fill_scan st) = decide_command format_value st.
Proof.
  unfold decide_command, fill_scan. cbn [best_candidate max_uncertainty].
  destruct (best_candidate st) as [best|]; cbn; [|done]. intros Hok.
  rewrite (eligible_truthy best Hok), (eligible_truthy (fill_defaults best));
    [|by rewrite battery_ok_fill].
  cbn. destruct (py_gt (max_uncertainty st) (PyFloat 0.6)); [|done].
  rewrite fill_defaults_get. unfold subscript. rewrite fill_defaults_node_id.
  destruct (gt_num _ _) as [[]|e] eqn:Hhigh; cbn; try done.
  destruct (best !! "node_id") as [nid|]; cbn; [|done].
  destruct (best !! "harvest_potential") as [hp|] eqn:Hhp.
  - by rewrite (fill_defaults_lookup_Some _ _ _ Hhp).
  - unfold dict_get in Hhigh. rewrite Hhp in Hhigh. discriminate Hhigh.
Qed.

(** Missing numeric fields act as 0: the call answers on any records, well
    formed or not, as it answers on the records with 0 written in. *)
Lemma simulate_fill (network_state : list (gmap string value))
    (mission_goal : string) :
  simulate_llm_api_call format_value (fill_defaults <$> network_state) mission_goal =
  simulate_llm_api_call format_value network_state mission_goal.
Proof.
  unfold simulate_llm_api_call.
  change scan_init with (fill_scan scan_init) at 1. rewrite scan_loop_fill.
  destruct (scan_loop scan_init network_state) as [st|e] eqn:Hloop; cbn; [|done].
  apply decide_command_fill.
  pose proof (scan_inv_loop network_state [] scan_init st scan_inv_init Hloop) as Hinv.
  unfold scan_inv in Hinv. destruct (best_candidate st); [|done].
  by destruct Hinv as (_ & _ & ? & _).
Qed.

(** On well-formed records the loop does not raise, and a candidate is one
    of the records. *)
Lemma well_formed_numeric (node : gmap string value) (k : string) :
  well_formed node → k ∈ NUMERIC_FIELDS →
  ∃ n, dict_get node k (VNum (PyInt 0)) = VNum n.
Proof.
  intros [_ Hnum] Hk. specialize (Hnum k Hk). unfold dict_get.
  destruct (node !! k) as [[|n| | |]|]; try done; by eexists.
Qed.

Lemma scan_step_total (st : scan) (node : gmap string value) :
  well_formed node → ∃ st', scan_step st node = Ok st'.
Proof.
  intros Hwf. unfold scan_step, battery_ok, uncertainty.
  destruct (well_formed_numeric node "battery_percent" Hwf) as [b ->];
    [unfold NUMERIC_FIELDS; set_solver|].
  destruct (well_formed_numeric node "data_uncertainty" Hwf) as [u ->];
    [unfold NUMERIC_FIELDS; set_solver|].
  cbn. destruct (py_ge b MIN_BATTERY_PERCENT); [|by eexists].
  destruct (py_gt u (max_uncertainty st)); by eexists.
Qed.

Lemma scan_loop_total (network_state : list (gmap string value)) (st : scan) :
  Forall well_formed network_state → ∃ st', scan_loop st network_state = Ok st'.
Proof.
  intros Hall. revert st. induction Hall as [|node rest Hnode _ IH]; intros st; cbn.
  - by eexists.
  - destruct (scan_step_total st node Hnode) as [st1 ->]. cbn. apply IH.
Qed.

Lemma decide_command_total (st : scan) :
  match best_candidate st with
  | Some best => well_formed best
  | None => True
  end →
  ∃ cmd, decide_command format_value st = Ok cmd.
Proof.
  unfold decide_command. destruct (best_candidate st) as [best|]; [|by eexists].
  intros Hwf. destruct (dict_truthy best && _); [|by eexists].
  destruct (well_formed_numeric best "harvest_potential" Hwf) as [h Hh];
    [unfold NUMERIC_FIELDS; set_solver|].
  rewrite Hh. cbn. destruct Hwf as [[nid Hnid] _].
  unfold subscript. rewrite Hnid. cbn.
  destruct (py_gt h (PyFloat 0.7)) eqn:Hhigh; [|by eexists].
  destruct (best !! "harvest_potential") as [hp|] eqn:Hhp; cbn; [by eexists|].
  unfold dict_get in Hh. rewrite Hhp in Hh. injection Hh as <-. discriminate Hhigh.
Qed.

(** C6, amended: on records that each carry [node_id] and hold numbers in the
    numeric fields they carry, the call returns a command and raises
    nothing; it is the command for the records with every missing
    [battery_percent], [data_uncertainty] and [harvest_potential] written as
    0; and when the scan ends without a candidate it is the [DO_NOTHING]
    command. *)
Theorem simulate_returns_on_well_formed (network_state : list (gmap string value))
    (mission_goal : string) :
  Forall well_formed network_state →
  ∃ cmd,
    simulate_llm_api_call format_value network_state mission_goal = Ok cmd ∧
    simulate_llm_api_call format_value (fill_defaults <$> network_state) mission_goal
      = Ok cmd ∧
    (∀ st, scan_loop scan_init network_state = Ok st →
           best_candidate st = None → cmd = do_nothing).
Proof.
  intros Hall.
  destruct (scan_loop_total network_state scan_init Hall) as [st Hloop].
  destruct (decide_command_total st) as [cmd Hcmd].
  { pose proof (scan_inv_loop network_state [] scan_init st scan_inv_init Hloop)
      as Hinv.
    unfold scan_inv in Hinv. destruct (best_candidate st) as [best|]; [|done].
    destruct Hinv as (i & Hi & _). cbn in Hi.
    rewrite Forall_lookup in Hall. by apply (Hall i). }
  assert (simulate_llm_api_call format_value network_state mission_goal = Ok cmd)
    as Hcall.
  { unfold simulate_llm_api_call. by rewrite Hloop. }
  exists cmd. split_and!; [done|by rewrite simulate_fill|].
  intros st' Hloop' Hnone. rewrite Hloop in Hloop'. injection Hloop' as <-.
  unfold decide_command in Hcmd. rewrite Hnone in Hcmd. by injection Hcmd.
Qed.

End Defaults.

(** Witness of [simulate_returns_on_well_formed]: a lone record that carries
    [node_id] and nothing else; its battery counts as 0, so nothing is
    woken. *)
Lemma simulate_returns_on_well_formed_witness :
  ∃ cmd,
    simulate_llm_api_call format_plain [ {["node_id" := VStr "Node_7"]} ]
      "Reduce the highest data uncertainty" = Ok cmd ∧
    simulate_llm_api_call format_plain
      (fill_defaults <$> [ {["node_id" := VStr "Node_7"]} ])
      "Reduce the highest data uncertainty" = Ok cmd ∧
    (∀ st, scan_loop scan_init [ {["node_id" := VStr "Node_7"]} ] = Ok st →
           best_candidate st = None → cmd = do_nothing).
Proof.
  apply simulate_returns_on_well_formed.
  apply List.Forall_cons; [|apply List.Forall_nil].
  split; [by eexists|].
  intros k Hk. unfold NUMERIC_FIELDS in Hk. by key_cases Hk.
Defined.

End LlmOrchestratorSpec.

(** ** The runs of the two [__main__] blocks and the end-to-end scenarios *)

Module Scenarios.
Import Py NodeSimulator LlmOrchestrator.

(** An hour of [SLEEP] at 80% harvest from a full battery stays full; a minute
    of [SENSE_HIGH] at night then costs 9 joules. *)
Example main_node_simulator :
  let node1 := init "t0" "Node_42" MAX_CAPACITY in
  let node1 := set_harvest_potential node1 0.8 in
  let node1 := update_state "t1" node1 3600 in
  let after_sleep := battery_joules (state node1) in
  let node1 := set_policy node1 "SENSE_HIGH" in
  let node1 := set_harvest_potential node1 0.0 in
  let node1 := update_state "t2" node1 60 in
  let node1 := set_policy node1 "SLEEP" in
  after_sleep = 3600%float ∧
  battery_joules (state node1) = 3591%float ∧
  current_policy (state node1) = "SLEEP" ∧
  last_wake_time (state node1) = "t2".
Proof. split_and!; reflexivity. Qed.

(** Scenario A: the [__main__] network wakes [Node_11] with [SENSE_HIGH]. *)
Example scenario_A :
  simulate_llm_api_call format_plain [Node_42; Node_11] "goal" =
  Ok (wake_node (VStr "Node_11") "SENSE_HIGH" bo_params_high
        (reason_high format_plain (VStr "Node_11") (PyFloat 0.8)
           (VNum (PyFloat 0.9)) "SENSE_HIGH")).
Proof. reflexivity. Qed.

(** Scenario B: with [Node_11] at 15.0 percent nothing is woken. *)
Example scenario_B :
  simulate_llm_api_call format_plain
    [Node_42; <["battery_percent" := VNum (PyFloat 15.0)]> Node_11] "goal" =
  Ok do_nothing.
Proof. reflexivity. Qed.

(** Scenario C: a lone node at 50.0 percent, harvest 0.3 and uncertainty 0.75
    is woken with [SENSE_LOW]. *)
Example scenario_C :
  simulate_llm_api_call format_plain [snapshot "Node_7" 50.0 0.3 0.75] "goal" =
  Ok (wake_node (VStr "Node_7") "SENSE_LOW" bo_params_low
        (reason_low format_plain (VStr "Node_7") (PyFloat 0.75) "SENSE_LOW")).
Proof. reflexivity. Qed.

(** A [nan] uncertainty is never selected, a string where a number is read
    raises [TypeError], and an [int] compares with a [float] by value. *)
Example scan_nan_uncertainty :
  simulate_llm_api_call format_plain
    [<["data_uncertainty" := VNum (PyFloat nan)]> Node_11] "goal" = Ok do_nothing.
Proof. reflexivity. Qed.

Example scan_string_battery :
  simulate_llm_api_call format_plain
    [<["battery_percent" := VStr "full"]> Node_11] "goal" = Raise TypeError.
Proof. reflexivity. Qed.

Example int_against_float :
  py_gt (PyInt 1) (PyFloat 0.6) = true ∧
  py_ge (PyInt 20) (PyFloat 20.0) = true ∧
  py_gt (PyInt 9007199254740993) (PyFloat 9007199254740992) = true.
Proof. split_and!; reflexivity. Qed.

End Scenarios.

(** ** Runs of a simulator *)

Module NodeSimulatorRuns.
Import Py NodeSimulator NodeSimulatorSpec.

Lemma run_events_cons (self : IoTNodeSimulator) (e : event) (es : list event) :
  run_events self (e :: es) = run_events (apply_event self e) es.
Proof. reflexivity. Qed.

Lemma default_last_cons {A : Type} (a x : A) (l : list A) :
  default a (last (x :: l)) = default x (last l).
Proof.
  revert a x. induction l as [|y l IH]; intros a x; [done|].
  change (last (x :: y :: l)) with (last (y :: l)).
  by rewrite (IH a y), (IH x y).
Qed.

(** What each kind of event leaves alone. *)
Lemma apply_event_frame (self : IoTNodeSimulator) (e : event) :
  node_id (state (apply_event self e)) = node_id (state self) ∧
  time_step (apply_event self e) = time_step self.
Proof.
  destruct e as [now d|p|h|u]; cbn; try done.
  unfold set_policy. by destruct (POWER_CONSUMPTION !! p).
Qed.

Lemma set_policy_battery (self : IoTNodeSimulator) (p : string) :
  battery_joules (state (set_policy self p)) = battery_joules (state self).
Proof. unfold set_policy. by destruct (POWER_CONSUMPTION !! p). Qed.

Lemma set_policy_stamp (self : IoTNodeSimulator) (p : string) :
  last_wake_time (state (set_policy self p)) = last_wake_time (state self).
Proof. unfold set_policy. by destruct (POWER_CONSUMPTION !! p). Qed.

(** X1: no run of method calls and field assignments changes [node_id] or
    [time_step], and a run without an [update_state] call leaves
    [battery_joules] as it was. *)
Theorem run_events_frame (self : IoTNodeSimulator) (es : list event) :
  node_id (state (run_events self es)) = node_id (state self) ∧
  time_step (run_events self es) = time_step self ∧
  (update_times es = [] →
   battery_joules (state (run_events self es)) = battery_joules (state self)).
Proof.
  revert self. induction es as [|e es IH]; intros self; [done|].
  rewrite run_events_cons.
  destruct (IH (apply_event self e)) as (Hid & Hts & Hb).
  destruct (apply_event_frame self e) as [Hid' Hts'].
  split_and!; [congruence..|].
  intros Hnone. destruct e as [now d|p|h|u]; cbn in Hnone; try done;
    rewrite (Hb Hnone); cbn [apply_event]; [apply set_policy_battery|done..].
Qed.

(** X2: after any run, [last_wake_time] is the clock reading of the run's
    last [update_state] call, and the stamp it had before when the run has
    none. *)
Theorem run_events_last_wake_time (self : IoTNodeSimulator) (es : list event) :
  last_wake_time (state (run_events self es)) =
  default (last_wake_time (state self)) (last (update_times es)).
Proof.
  revert self. induction es as [|e es IH]; intros self; [done|].
  rewrite run_events_cons, IH.
  destruct e as [now d|p|h|u]; cbn [update_times omap list_omap apply_event];
    try done.
  - fold (update_times es). by rewrite default_last_cons.
  - fold (update_times es). by rewrite set_policy_stamp.
Qed.

Lemma current_policy_after_run (self : IoTNodeSimulator) (es : list event) :
  current_policy (state (run_events self es)) =
  default (current_policy (state self)) (last (accepted_policies es)).
Proof.
  revert self. induction es as [|e es IH]; intros self; [done|].
  rewrite run_events_cons, IH.
  destruct e as [now d|p|h|u]; cbn [accepted_policies omap list_omap apply_event];
    try done.
  unfold set_policy. destruct (POWER_CONSUMPTION !! p) as [w|]; [|done].
  fold (accepted_policies es). by rewrite default_last_cons.
Qed.

(** X3: after any run, [current_policy] is the argument of the run's last
    [set_policy] call among those naming a key of [POWER_CONSUMPTION], and
    the policy it had before when the run has none: calls with other
    strings leave no trace. *)
Theorem run_events_current_policy (self : IoTNodeSimulator) (es : list event) :
  current_policy (state (run_events self es)) =
  default (current_policy (state self)) (last (accepted_policies es)).
Proof. apply current_policy_after_run. Qed.

Lemma accepted_policies_in_table (es : list event) (p : string) :
  p ∈ accepted_policies es → is_Some (POWER_CONSUMPTION !! p).
Proof.
  unfold accepted_policies. rewrite list_elem_of_omap.
  intros (e & _ & He). destruct e as [now d|q|h|u]; try done.
  destruct (POWER_CONSUMPTION !! q) as [w|] eqn:Hq; [|done].
  injection He as <-. by exists w.
Qed.

(** X4: a simulator built by the constructor and driven through any run has
    a [current_policy] that is a key of [POWER_CONSUMPTION], so
    [_calculate_power_change] subtracts that policy's own entry: the [SLEEP]
    default of its [get] is never the value used for a missing key. *)
Theorem constructed_policy_in_table
    (import_time nid : string) (initial_capacity : float) (es : list event) :
  let self := run_events (init import_time nid initial_capacity) es in
  current_policy (state self) ∈ POLICIES ∧
  ∃ watts,
    POWER_CONSUMPTION !! current_policy (state self) = Some watts ∧
    _calculate_power_change self =
      (harvest_potential (state self) * HARVEST_RATE_MAX - watts)%float.
Proof.
  cbn zeta. set (self := run_events _ es).
  assert (is_Some (POWER_CONSUMPTION !! current_policy (state self))) as [w Hw].
  { unfold self. rewrite current_policy_after_run.
    destruct (last (accepted_policies es)) as [p|] eqn:Hlast; cbn.
    - apply accepted_policies_in_table with es. by apply last_Some_elem_of.
    - by eexists. }
  split.
  - apply POWER_CONSUMPTION_keys. by exists w.
  - exists w. split; [done|]. unfold _calculate_power_change, dict_get. by rewrite Hw.
Qed.

Lemma apply_event_in_range (self : IoTNodeSimulator) (e : event) :
  battery_in_range (battery_joules (state self)) = true →
  battery_in_range (battery_joules (state (apply_event self e))) = true.
Proof.
  intros Hin. destruct e as [now d|p|h|u]; cbn [apply_event]; try done.
  - apply clamp_in_range.
  - by rewrite set_policy_battery.
Qed.

Lemma run_events_in_range (self : IoTNodeSimulator) (es : list event) :
  battery_in_range (battery_joules (state self)) = true →
  battery_in_range (battery_joules (state (run_events self es))) = true.
Proof.
  revert self. induction es as [|e es IH]; intros self Hin; [done|].
  rewrite run_events_cons. by apply IH, apply_event_in_range.
Qed.

(** X5: the battery bound is an invariant of every run: a battery that is
    within [[0, MAX_CAPACITY]], or a run with at least one [update_state]
    call, ends within [[0, MAX_CAPACITY]]. *)
Theorem run_events_battery_in_range (self : IoTNodeSimulator) (es : list event) :
  battery_in_range (battery_joules (state self)) = true ∨ update_times es ≠ [] →
  battery_in_range (battery_joules (state (run_events self es))) = true.
Proof.
  intros [Hin|Hupd]; [by apply run_events_in_range|].
  revert self. induction es as [|e es IH]; intros self; [done|].
  rewrite run_events_cons.
  destruct e as [now d|p|h|u]; cbn in Hupd; try (by apply IH).
  apply run_events_in_range. apply clamp_in_range.
Qed.

(** Witness of [run_events_battery_in_range]: a simulator built 400 joules
    over capacity, then the calls of the [__main__] block. *)
Lemma run_events_battery_in_range_witness :
  battery_in_range
    (battery_joules
       (state (run_events (init "t0" "Node_42" 4000)
                 [Harvest 0.8; Update "t1" 3600; Policy "SENSE_HIGH";
                  Harvest 0.0; Update "t2" 60; Policy "SLEEP"]))) = true.
Proof.
  apply run_events_battery_in_range. right. discriminate.
Defined.

End NodeSimulatorRuns.

(** ** The edges of the clamp *)

Module NodeSimulatorEdges.
Import Py PyFacts FloatOrder NodeSimulator NodeSimulatorSpec.

(** [a <= b] excludes [b < a], on doubles. *)
Lemma leb_not_ltb (a b : float) : (a <=? b)%float = true → (b <? a)%float = false.
Proof.
  rewrite <- py_le_float, <- py_lt_float. apply py_le_not_gt.
Qed.

Lemma exact_le_lt_trans (a b c : exact) :
  (exact_compare a b = Some Lt ∨ exact_compare a b = Some Eq) →
  exact_compare b c = Some Lt →
  exact_compare a c = Some Lt.
Proof.
  destruct a as [|sa|p], b as [|sb|q], c as [|sc|r]; simpl; intros Hpq Hqr;
    repeat match goal with s : bool |- _ => destruct s end;
    try done; try (by destruct Hpq).
  f_equal. apply Qlt_alt.
  injection Hqr as Hqr. apply Qlt_alt in Hqr.
  destruct Hpq as [Hpq|Hpq]; injection Hpq as Hpq.
  - apply Qlt_alt in Hpq. by apply Qlt_trans with q.
  - apply Qeq_alt in Hpq. by rewrite Hpq.
Qed.

(** [a <= b] and [b < c] give [a < c], on doubles. *)
Lemma leb_ltb_trans (a b c : float) :
  (a <=? b)%float = true → (b <? c)%float = true → (a <? c)%float = true.
Proof.
  rewrite <- py_le_float, <- !py_lt_float. unfold py_le, py_lt. cbn [num_exact].
  intros Hab Hbc.
  rewrite (exact_le_lt_trans (float_exact a) (float_exact b) (float_exact c)); [done| |].
  - destruct (exact_compare (float_exact a) _) as [[]|]; auto; done.
  - by destruct (exact_compare (float_exact b) _) as [[]|].
Qed.

(** A double that differs from itself is [nan], and [nan] is below nothing. *)
Lemma is_nan_not_ltb (x y : float) : is_nan x = true → (x <? y)%float = false.
Proof.
  unfold is_nan. rewrite <- py_eq_float, <- py_lt_float.
  unfold py_eq, py_lt. cbn [num_exact].
  destruct (float_exact x) as [|s|q]; cbn; [done| |].
  - by destruct s.
  - by rewrite (proj1 (Qeq_alt q q) (Qeq_refl q)).
Qed.

(** X6: the clamp saturates. When [battery_joules + energy_change] is at or
    above [MAX_CAPACITY], [update_state] stores [MAX_CAPACITY]; when it is at
    or below 0, it stores 0. *)
Theorem update_state_saturates
    (now : string) (self : IoTNodeSimulator) (duration_s : float) :
  let unclamped :=
    (battery_joules (state self) + _calculate_power_change self * duration_s)%float in
  let after := battery_joules (state (update_state now self duration_s)) in
  ((MAX_CAPACITY <=? unclamped)%float = true → after = MAX_CAPACITY) ∧
  ((unclamped <=? 0)%float = true → after = 0%float).
Proof.
  cbn zeta. unfold update_state. cbn [state battery_joules].
  set (u := (_ + _)%float). unfold py_max, py_min. split; intros Hu.
  - by rewrite (leb_not_ltb _ _ Hu).
  - rewrite (leb_ltb_trans u 0 MAX_CAPACITY Hu eq_refl).
    by rewrite (leb_not_ltb _ _ Hu).
Qed.

(** Witness of [update_state_saturates]: an hour of [SLEEP] at 80% harvest
    on a full battery, and an hour of [TRANSMIT] at night on one joule. *)
Lemma update_state_saturates_witness :
  battery_joules
    (state (update_state "t1"
              (mkSim (mkNodeState "Node_42" 3600 "SLEEP" "t0" 0.8 0.5) 1) 3600))
    = MAX_CAPACITY ∧
  battery_joules
    (state (update_state "t1"
              (mkSim (mkNodeState "Node_42" 1 "TRANSMIT" "t0" 0 0.5) 1) 3600))
    = 0%float.
Proof.
  split.
  - exact (proj1 (update_state_saturates "t1"
                    (mkSim (mkNodeState "Node_42" 3600 "SLEEP" "t0" 0.8 0.5) 1) 3600)
             eq_refl).
  - exact (proj2 (update_state_saturates "t1"
                    (mkSim (mkNodeState "Node_42" 1 "TRANSMIT" "t0" 0 0.5) 1) 3600)
             eq_refl).
Defined.

(** X7: when [battery_joules + energy_change] is [nan] (a [nan] harvest
    reading, battery or duration, or an infinite one times zero),
    [update_state] stores a full battery, [MAX_CAPACITY]. *)
Theorem update_state_nan_fills
    (now : string) (self : IoTNodeSimulator) (duration_s : float) :
  is_nan (battery_joules (state self) + _calculate_power_change self * duration_s)
    = true →
  battery_joules (state (update_state now self duration_s)) = MAX_CAPACITY.
Proof.
  intros Hnan. unfold update_state. cbn [state battery_joules].
  unfold py_max, py_min. by rewrite (is_nan_not_ltb _ MAX_CAPACITY Hnan).
Qed.

(** Witness of [update_state_nan_fills]: an empty battery, no harvest, and a
    [nan] duration. *)
Lemma update_state_nan_fills_witness :
  battery_joules
    (state (update_state "t1"
              (mkSim (mkNodeState "Node_42" 0 "SENSE_HIGH" "t0" 0 0.5) 1) nan))
    = MAX_CAPACITY.
Proof.
  exact (update_state_nan_fills "t1"
           (mkSim (mkNodeState "Node_42" 0 "SENSE_HIGH" "t0" 0 0.5) 1) nan eq_refl).
Defined.

(** *** A duration of zero *)

(** A finite double is a zero or has a mantissa. *)
Lemma is_finite_inv (x : float) :
  is_finite x = true →
  (∃ s, Prim2SF x = S754_zero s) ∨ (∃ s m e, Prim2SF x = S754_finite s m e).
Proof.
  unfold is_finite, is_nan, is_infinity.
  rewrite !FloatAxioms.eqb_spec, abs_spec.
  change (Prim2SF infinity) with (S754_infinity false).
  destruct (Prim2SF x) as [s|s| |s m e] eqn:E; cbn; try done; eauto.
  by destruct s.
Qed.

(** A double within the battery bounds is a zero or has a mantissa. *)
Lemma in_range_inv (b : float) :
  battery_in_range b = true →
  (∃ s, Prim2SF b = S754_zero s) ∨ (∃ s m e, Prim2SF b = S754_finite s m e).
Proof.
  unfold battery_in_range. rewrite !leb_spec.
  change (Prim2SF 0) with (S754_zero false).
  change (Prim2SF MAX_CAPACITY) with (S754_finite false 7916483719987200 (-41)).
  destruct (Prim2SF b) as [s|s| |s m e] eqn:E; intros Hin.
  - left. by exists s.
  - destruct s; vm_compute in Hin; discriminate Hin.
  - vm_compute in Hin. discriminate Hin.
  - right. by exists s, m, e.
Qed.

(** X8: a call [update_state(0)] on a battery within the bounds, when the
    power change rate is finite, leaves [battery_joules] equal as a number to
    what it was. *)
Theorem update_state_zero_duration (now : string) (self : IoTNodeSimulator) :
  battery_in_range (battery_joules (state self)) = true →
  is_finite (_calculate_power_change self) = true →
  (battery_joules (state (update_state now self 0)) =? battery_joules (state self))%float
    = true.
Proof.
  intros Hin Hfin. unfold update_state. cbn [state battery_joules].
  set (b := battery_joules (state self)) in *.
  set (rate := _calculate_power_change self) in *.
  assert (∃ s, Prim2SF (rate * 0) = S754_zero s) as [sz Hz].
  { rewrite mul_spec. change (Prim2SF 0) with (S754_zero false).
    destruct (is_finite_inv rate Hfin) as [[s ->]|(s & m & e & ->)]; cbn; eauto. }
  destruct (in_range_inv b Hin) as [[sb Hb]|(sb & mb & eb & Hb)].
  - (* a zero plus a zero is a zero *)
    assert (∃ s, Prim2SF (b + rate * 0) = S754_zero s) as [su Hu].
    { rewrite add_spec, Hb, Hz. cbn. destruct sb, sz; eauto. }
    unfold py_min, py_max.
    assert ((b + rate * 0 <? MAX_CAPACITY)%float = true) as ->.
    { rewrite ltb_spec, Hu. reflexivity. }
    assert ((0 <? b + rate * 0)%float = false) as ->.
    { rewrite ltb_spec, Hu. reflexivity. }
    rewrite FloatAxioms.eqb_spec, Hb. reflexivity.
  - (* a double with a mantissa plus a zero is itself *)
    assert ((b + rate * 0)%float = b) as ->.
    { apply Prim2SF_inj. by rewrite add_spec, Hb, Hz. }
    apply clamp_id; by apply andb_prop in Hin as [? ?].
Qed.

(** Witness of [update_state_zero_duration]: a full battery in [SENSE_HIGH]
    at night. *)
Lemma update_state_zero_duration_witness :
  (battery_joules
     (state (update_state "t1"
               (mkSim (mkNodeState "Node_42" 3600 "SENSE_HIGH" "t0" 0 0.5) 1) 0))
   =? 3600)%float = true.
Proof.
  exact (update_state_zero_duration "t1"
           (mkSim (mkNodeState "Node_42" 3600 "SENSE_HIGH" "t0" 0 0.5) 1)
           eq_refl eq_refl).
Defined.

End NodeSimulatorEdges.

(** ** The decision as a whole *)

Module LlmOrchestratorMore.
Import Py PyFacts LlmOrchestrator LlmOrchestratorSpec.

Lemma py_lt_trans (a b c : pynum) :
  py_lt a b = true → py_lt b c = true → py_lt a c = true.
Proof. intros Hab Hbc. apply py_lt_le_trans with b; [done|]. by apply py_lt_le. Qed.

(** Two numbers that each lie above something are ordered one way or the
    other. *)
Lemma py_not_lt_le (a b c d : pynum) :
  py_lt c a = true → py_lt d b = true → py_lt a b = false → py_le b a = true.
Proof.
  unfold py_lt, py_le.
  rewrite (exact_compare_antisym (num_exact a) (num_exact b)).
  destruct (num_exact a) as [|sa|p], (num_exact b) as [|sb|q],
           (num_exact c) as [|sc|r], (num_exact d) as [|sd|t]; cbn;
    repeat match goal with s : bool |- _ => destruct s end; try done;
    by destruct (Qcompare p q).
Qed.

Lemma above_init_step (st st' : scan) (node : gmap string value) :
  above_init st → scan_step st node = Ok st' → above_init st'.
Proof.
  intros Hst Hstep.
  apply scan_step_Ok in Hstep as [[_ ->]|(_ & u & _ & [[_ ->]|[Hgt ->]])]; try done.
  unfold above_init in *. cbn. unfold py_gt in Hgt.
  destruct (best_candidate st); [by apply py_lt_trans with (max_uncertainty st)|].
  by rewrite Hst in Hgt.
Qed.

Lemma above_init_loop (network_state : list (gmap string value)) (st st' : scan) :
  above_init st → scan_loop st network_state = Ok st' → above_init st'.
Proof.
  revert st. induction network_state as [|node rest IH]; intros st Hst; cbn.
  - by intros [= <-].
  - destruct (scan_step st node) as [st1|e] eqn:Hstep; cbn; [|done].
    apply IH. by apply above_init_step with st node.
Qed.

(** What the finished scan says: a candidate over 0.6 exactly when some
    battery-eligible record is over 0.6. *)
Lemma scan_over_threshold (network_state : list (gmap string value)) (st : scan) :
  scan_loop scan_init network_state = Ok st →
  (∃ best, best_candidate st = Some best ∧
           battery_ok best = Ok true ∧
           py_gt (max_uncertainty st) (PyFloat 0.6) = true) ↔
  (∃ node u, node ∈ network_state ∧
             battery_ok node = Ok true ∧
             uncertainty node = VNum u ∧
             py_gt u (PyFloat 0.6) = true).
Proof.
  intros Hloop.
  pose proof (scan_inv_loop network_state [] scan_init st scan_inv_init Hloop) as Hinv.
  pose proof (above_init_loop network_state scan_init st eq_refl Hloop) as Habove.
  cbn [app] in Hinv. unfold scan_inv in Hinv. unfold above_init in Habove.
  split.
  - intros (best & Hbest & Hok & Hgt). rewrite Hbest in Hinv.
    destruct Hinv as (i & Hi & _ & Hu & _).
    exists best, (max_uncertainty st). split_and!; try done.
    by apply list_elem_of_lookup_2 with i.
  - intros (node & u & Hin & Hok & Hu & Hgt).
    apply list_elem_of_lookup_1 in Hin as [j Hj].
    destruct (best_candidate st) as [best|].
    + destruct Hinv as (i & Hi & Hbok & Hbu & Hdom).
      exists best. split_and!; try done.
      destruct (Hdom j node Hj Hok) as (v & Hv & Hle & _).
      rewrite Hu in Hv. injection Hv as <-.
      unfold py_gt in *.
      apply py_lt_le_trans with u; [done|].
      by apply py_not_lt_le with (PyInt (-1)) (PyFloat 0.6).
    + destruct Hinv as [Hm Hdom].
      destruct (Hdom j node Hj Hok) as (v & Hv & Hle & _).
      rewrite Hu in Hv. injection Hv as <-.
      unfold py_gt in *.
      by rewrite (py_lt_trans (PyInt (-1)) (PyFloat 0.6) u eq_refl Hgt) in Hle.
Qed.

Section Whole.
Variable format_value : value → string.

(** The action of a returned command, from the loop variables. *)
Lemma decided_action (st : scan) (cmd : gmap string value) :
  decided format_value st cmd →
  (cmd !! "action" = Some (VStr "WAKE_NODE") ∧
   ∃ best, best_candidate st = Some best ∧
           py_gt (max_uncertainty st) (PyFloat 0.6) = true ∧
           cmd !! "target_node_id" = best !! "node_id" ∧
           is_Some (best !! "node_id")) ∨
  (cmd = do_nothing ∧
   match best_candidate st with
   | Some best => dict_truthy best && py_gt (max_uncertainty st) (PyFloat 0.6) = false
   | None => True
   end).
Proof.
  intros [Hno ->|best h nid hp Hbest Hgt _ _ Hnid _ ->|best h nid Hbest Hgt _ _ Hnid ->].
  - by right.
  - left. split; [reflexivity|]. exists best. rewrite Hnid. by split_and!.
  - left. split; [reflexivity|]. exists best. rewrite Hnid. by split_and!.
Qed.

(** X9: a call that returns wakes a node exactly when some record with
    [battery_percent >= 20.0] has a [data_uncertainty] above 0.6; otherwise
    its command is [DO_NOTHING]. *)
Theorem wake_iff_eligible_over_threshold
    (network_state : list (gmap string value)) (mission_goal : string)
    (cmd : gmap string value) :
  simulate_llm_api_call format_value network_state mission_goal = Ok cmd →
  (cmd !! "action" = Some (VStr "WAKE_NODE") ↔
   ∃ node u, node ∈ network_state ∧
             battery_ok node = Ok true ∧
             dict_get node "data_uncertainty" (VNum (PyInt 0)) = VNum u ∧
             py_gt u (PyFloat 0.6) = true) ∧
  (cmd !! "action" = Some (VStr "WAKE_NODE") ∨
   cmd !! "action" = Some (VStr "DO_NOTHING")).
Proof.
  intros Hcall. apply simulate_Ok in Hcall as (st & Hloop & Hdec).
  pose proof (scan_inv_loop network_state [] scan_init st scan_inv_init Hloop) as Hinv.
  cbn [app] in Hinv. unfold scan_inv in Hinv.
  apply decided_action in Hdec as [(Hact & best & Hbest & Hgt & _)|[-> Hno]].
  - split; [|by left]. split; [intros _|done].
    apply (scan_over_threshold network_state st Hloop).
    exists best. rewrite Hbest in Hinv. by destruct Hinv as (_ & _ & ? & _).
  - split; [|by right]. split; [done|]. intros Hex.
    apply (scan_over_threshold network_state st Hloop) in Hex
      as (best & Hbest & Hok & Hgt).
    rewrite Hbest in Hno. by rewrite (eligible_truthy best Hok), Hgt in Hno.
Qed.

(** A number read through [get(.., 0)] that passes a threshold the default 0
    fails was stored under the key. *)
Lemma get_over_default (node : gmap string value) (key : string) (n : pynum) :
  dict_get node key (VNum (PyInt 0)) = VNum n →
  n ≠ PyInt 0 →
  node !! key = Some (VNum n).
Proof.
  unfold dict_get. destruct (node !! key) as [v|]; [by intros ->|].
  intros [= <-] Hn. by destruct Hn.
Qed.

(** X10: the node a [WAKE_NODE] command targets is in the network: some
    input record carries the command's [target_node_id] as its [node_id],
    and carries a [battery_percent] of at least 20.0 and a
    [data_uncertainty] above 0.6. A record that lacks one of these two
    fields, read as 0, is never the one woken. *)
Theorem wake_target_is_eligible_record
    (network_state : list (gmap string value)) (mission_goal : string)
    (cmd : gmap string value) :
  simulate_llm_api_call format_value network_state mission_goal = Ok cmd →
  cmd !! "action" = Some (VStr "WAKE_NODE") →
  ∃ (i : nat) (node : gmap string value) (target : value) (b u : pynum),
    network_state !! i = Some node ∧
    cmd !! "target_node_id" = Some target ∧
    node !! "node_id" = Some target ∧
    node !! "battery_percent" = Some (VNum b) ∧
    py_ge b (PyFloat 20.0) = true ∧
    node !! "data_uncertainty" = Some (VNum u) ∧
    py_gt u (PyFloat 0.6) = true.
Proof.
  intros Hcall Hact. apply simulate_Ok in Hcall as (st & Hloop & Hdec).
  pose proof (scan_inv_loop network_state [] scan_init st scan_inv_init Hloop) as Hinv.
  cbn [app] in Hinv. unfold scan_inv in Hinv.
  apply decided_action in Hdec as [(_ & best & Hbest & Hgt & Htarget & [nid Hnid])|[-> _]];
    [|done].
  rewrite Hbest in Hinv. destruct Hinv as (i & Hi & Hok & Hu & _).
  destruct (battery_ok_true best Hok) as (b & Hb & Hge).
  exists i, best, nid, b, (max_uncertainty st).
  split_and!; try done.
  - by rewrite Htarget.
  - apply get_over_default; [done|]. intros ->. discriminate Hge.
  - apply get_over_default; [done|]. intros Hz. rewrite Hz in Hgt. discriminate Hgt.
Qed.

End Whole.

(** Witness of [wake_iff_eligible_over_threshold]: in the [__main__]
    network [Node_11] is eligible and 0.8 uncertain, and the command wakes. *)
Lemma wake_iff_eligible_over_threshold_witness :
  ∃ node u, node ∈ [Node_42; Node_11] ∧
            battery_ok node = Ok true ∧
            dict_get node "data_uncertainty" (VNum (PyInt 0)) = VNum u ∧
            py_gt u (PyFloat 0.6) = true.
Proof.
  apply (proj1 (wake_iff_eligible_over_threshold format_plain [Node_42; Node_11]
                  "Reduce the highest data uncertainty" _ eq_refl)).
  reflexivity.
Defined.

(** Witness of [wake_target_is_eligible_record], on the same network. *)
Lemma wake_target_is_eligible_record_witness :
  ∃ (i : nat) (node : gmap string value) (target : value) (b u : pynum),
    [Node_42; Node_11] !! i = Some node ∧
    Some (VStr "Node_11") = Some target ∧
    node !! "node_id" = Some target ∧
    node !! "battery_percent" = Some (VNum b) ∧
    py_ge b (PyFloat 20.0) = true ∧
    node !! "data_uncertainty" = Some (VNum u) ∧
    py_gt u (PyFloat 0.6) = true.
Proof.
  exact (wake_target_is_eligible_record format_plain [Node_42; Node_11]
           "Reduce the highest data uncertainty"
           (wake_node (VStr "Node_11") "SENSE_HIGH" bo_params_high
              (reason_high format_plain (VStr "Node_11") (PyFloat 0.8)
                 (VNum (PyFloat 0.9)) "SENSE_HIGH"))
           eq_refl eq_refl).
Defined.

End LlmOrchestratorMore.

(** ** Exceptions, the schema, and the two modules together *)

Module LlmOrchestratorRobust.
Import Py PyFacts NodeSimulator LlmOrchestrator LlmOrchestratorSpec LlmOrchestratorMore.

(** An iteration on a record whose battery check answers [False] changes
    nothing, whatever its other fields hold. *)
Lemma scan_step_ineligible (st : scan) (node : gmap string value) :
  ineligible node = true → scan_step st node = Ok st.
Proof.
  unfold ineligible, scan_step. by destruct (battery_ok node) as [[]|].
Qed.

Lemma scan_loop_drop_ineligible (network_state : list (gmap string value))
    (st : scan) :
  scan_loop st (filter (λ node, ineligible node = false) network_state) =
  scan_loop st network_state.
Proof.
  revert st. induction network_state as [|node rest IH]; intros st; [done|].
  rewrite filter_cons. destruct (decide (ineligible node = false)) as [Hk|Hk]; cbn.
  - destruct (scan_step st node); cbn; [apply IH|done].
  - apply not_false_is_true in Hk. rewrite (scan_step_ineligible st node Hk). cbn.
    apply IH.
Qed.

(** An iteration raises nothing but [TypeError], and raises it on an
    ill-typed record whatever the loop variables. *)
Lemma scan_step_Raise (st : scan) (node : gmap string value) (e : exn) :
  scan_step st node = Raise e → e = TypeError ∧ ill_typed node.
Proof.
  unfold scan_step, ill_typed, battery_ok, ge_num.
  destruct (dict_get node "battery_percent" _) as [|b| | |]; cbn;
    try (intros [= <-]; by auto).
  destruct (py_ge b MIN_BATTERY_PERCENT); [|done].
  destruct (uncertainty node) as [|u| | |]; try (intros [= <-]; by auto).
  by destruct (py_gt u (max_uncertainty st)).
Qed.

Lemma scan_step_ill_typed (st : scan) (node : gmap string value) :
  ill_typed node → scan_step st node = Raise TypeError.
Proof.
  unfold scan_step. intros [->|[-> Hu]]; cbn; [done|].
  destruct (uncertainty node) as [|u| | |]; try done. by destruct (Hu u).
Qed.

Lemma scan_loop_Raise (network_state : list (gmap string value)) (st : scan)
    (e : exn) :
  scan_loop st network_state = Raise e →
  e = TypeError ∧ ∃ node, node ∈ network_state ∧ ill_typed node.
Proof.
  revert st. induction network_state as [|node rest IH]; intros st; cbn; [done|].
  destruct (scan_step st node) as [st1|e1] eqn:Hstep; cbn.
  - intros [He (n & Hn & Hill)]%IH. split; [done|]. exists n. split; [|done].
    by apply list_elem_of_further.
  - intros [= <-]. apply scan_step_Raise in Hstep as [-> Hill].
    split; [done|]. exists node. split; [|done]. apply list_elem_of_here.
Qed.

Lemma scan_loop_ill_typed (network_state : list (gmap string value)) (st : scan) :
  (∃ node, node ∈ network_state ∧ ill_typed node) →
  scan_loop st network_state = Raise TypeError.
Proof.
  intros (n & Hn & Hill). revert st.
  induction network_state as [|node rest IH]; intros st; [by apply elem_of_nil in Hn|].
  cbn. destruct (scan_step st node) as [st1|e1] eqn:Hstep; cbn.
  - apply elem_of_cons in Hn as [->|Hn]; [|by apply IH].
    by rewrite (scan_step_ill_typed st node Hill) in Hstep.
  - by apply scan_step_Raise in Hstep as [-> _].
Qed.

Section Robust.
Variable format_value : value → string.

(** X11: records whose battery check answers [False] have no part in the
    outcome: with them removed from the list the call returns the same
    command or raises the same exception, whatever their [data_uncertainty],
    [harvest_potential] and [node_id] hold or lack. *)
Theorem ineligible_records_are_ignored
    (network_state : list (gmap string value)) (mission_goal : string) :
  simulate_llm_api_call format_value
    (filter (λ node, ineligible node = false) network_state) mission_goal =
  simulate_llm_api_call format_value network_state mission_goal.
Proof.
  unfold simulate_llm_api_call. by rewrite scan_loop_drop_ineligible.
Qed.

(** X12: one ill-typed record anywhere in the list makes the whole call
    raise [TypeError]: a [battery_percent] that is no number, or a
    [data_uncertainty] that is no number on a battery-eligible record. A
    candidate found before it does not save the call. *)
Theorem ill_typed_record_raises
    (network_state : list (gmap string value)) (mission_goal : string) :
  (∃ node, node ∈ network_state ∧ ill_typed node) →
  simulate_llm_api_call format_value network_state mission_goal = Raise TypeError.
Proof.
  intros Hill. unfold simulate_llm_api_call.
  by rewrite (scan_loop_ill_typed network_state scan_init Hill).
Qed.

(** The exceptions of the decision point. *)
Lemma decide_command_Raise (st : scan) (e : exn) :
  decide_command format_value st = Raise e →
  ∃ best, best_candidate st = Some best ∧
          py_gt (max_uncertainty st) (PyFloat 0.6) = true ∧
          ((e = TypeError ∧
            ∀ h, dict_get best "harvest_potential" (VNum (PyInt 0)) ≠ VNum h) ∨
           (e = KeyError "node_id" ∧ best !! "node_id" = None)).
Proof.
  unfold decide_command.
  destruct (best_candidate st) as [best|]; [|done].
  destruct (dict_truthy best); cbn; [|done].
  destruct (py_gt (max_uncertainty st) (PyFloat 0.6)); [|done].
  intros Hraise. exists best. split_and!; [done..|].
  unfold gt_num, subscript in Hraise.
  destruct (dict_get best "harvest_potential" _) as [|h| | |] eqn:Hh; cbn in Hraise;
    try (injection Hraise as <-; by left).
  right. destruct (best !! "node_id") as [nid|] eqn:Hnid; cbn in Hraise.
  - exfalso. destruct (py_gt h (PyFloat 0.7)) eqn:Hhigh; [|done].
    destruct (best !! "harvest_potential") as [hp|] eqn:Hhp; cbn in Hraise; [done|].
    unfold dict_get in Hh. rewrite Hhp in Hh. injection Hh as <-. discriminate Hhigh.
  - destruct (py_gt h (PyFloat 0.7)); by injection Hraise as <-.
Qed.

(** X13: on a list whose elements are all dicts, the call raises nothing
    but [TypeError] and [KeyError('node_id')]. The [KeyError] means that the
    scan went through and chose, over the 0.6 threshold, a battery-eligible
    record of the list that has no [node_id]; the subscript
    [best_candidate['harvest_potential']] never raises. (An element that is
    no dict has no [get]; such lists are outside [network_state]'s type
    here.) *)
Theorem raises_only_TypeError_or_missing_node_id
    (network_state : list (gmap string value)) (mission_goal : string) (e : exn) :
  simulate_llm_api_call format_value network_state mission_goal = Raise e →
  e = TypeError ∨
  (e = KeyError "node_id" ∧
   ∃ (i : nat) (node : gmap string value) (u : pynum),
     network_state !! i = Some node ∧
     node !! "node_id" = None ∧
     battery_ok node = Ok true ∧
     dict_get node "data_uncertainty" (VNum (PyInt 0)) = VNum u ∧
     py_gt u (PyFloat 0.6) = true).
Proof.
  unfold simulate_llm_api_call.
  destruct (scan_loop scan_init network_state) as [st|e1] eqn:Hloop; cbn.
  - intros (best & Hbest & Hgt & [[-> _]|[-> Hnid]])%decide_command_Raise; [by left|].
    right. split; [done|].
    pose proof (scan_inv_loop network_state [] scan_init st scan_inv_init Hloop)
      as Hinv.
    cbn [app] in Hinv. unfold scan_inv in Hinv. rewrite Hbest in Hinv.
    destruct Hinv as (i & Hi & Hok & Hu & _).
    by exists i, best, (max_uncertainty st).
  - intros [= <-]. left. by apply scan_loop_Raise in Hloop as [-> _].
Qed.

Lemma command_conforms_to_schema_aux
    (network_state : list (gmap string value)) (mission_goal : string)
    (cmd : gmap string value) :
  (∀ node v, node ∈ network_state → node !! "node_id" = Some v → ∃ s, v = VStr s) →
  simulate_llm_api_call format_value network_state mission_goal = Ok cmd →
  validates LLM_OUTPUT_SCHEMA (VDict cmd) = true.
Proof.
  intros Hids Hcall. apply simulate_Ok in Hcall as (st & Hloop & Hdec).
  pose proof (scan_inv_loop network_state [] scan_init st scan_inv_init Hloop) as Hinv.
  cbn [app] in Hinv. unfold scan_inv in Hinv.
  destruct Hdec as [_ ->|best h nid hp Hbest _ _ _ Hnid _ ->
                         |best h nid Hbest _ _ _ Hnid ->]; [reflexivity| |].
  - rewrite Hbest in Hinv. destruct Hinv as (i & Hi & _).
    destruct (Hids best nid) as [s ->]; [by apply list_elem_of_lookup_2 with i|done|].
    reflexivity.
  - rewrite Hbest in Hinv. destruct Hinv as (i & Hi & _).
    destruct (Hids best nid) as [s ->]; [by apply list_elem_of_lookup_2 with i|done|].
    reflexivity.
Qed.


(** X15: the [new_policy] of a returned command is a policy [set_policy]
    accepts: applied to any simulator, it becomes its [current_policy]. *)
Theorem command_policy_is_accepted
    (network_state : list (gmap string value)) (mission_goal : string)
    (cmd : gmap string value) (policy : value) (self : IoTNodeSimulator) :
  simulate_llm_api_call format_value network_state mission_goal = Ok cmd →
  cmd !! "new_policy" = Some policy →
  ∃ p, policy = VStr p ∧
       p ∈ POLICIES ∧
       NodeSimulator.current_policy (state (set_policy self p)) = p.
Proof.
  intros Hcall Hpol. apply simulate_Ok in Hcall as (st & _ & Hdec).
  destruct Hdec as [_ ->|best h nid hp _ _ _ _ _ _ ->|best h nid _ _ _ _ _ ->].
  - done.
  - unfold wake_node in Hpol. simplify_map_eq.
    exists "SENSE_HIGH". split_and!; [done| |done].
    unfold POLICIES. rewrite !elem_of_cons. auto 10.
  - unfold wake_node in Hpol. simplify_map_eq.
    exists "SENSE_LOW". split_and!; [done| |done].
    unfold POLICIES. rewrite !elem_of_cons. auto 10.
Qed.

(** X16: whether a node is woken does not depend on the order of the
    records: two calls on lists that are permutations of each other, when
    both return, return commands with the same [action]. *)
Theorem action_is_order_independent
    (network_state network_state' : list (gmap string value))
    (mission_goal mission_goal' : string) (cmd cmd' : gmap string value) :
  network_state ≡ₚ network_state' →
  simulate_llm_api_call format_value network_state mission_goal = Ok cmd →
  simulate_llm_api_call format_value network_state' mission_goal' = Ok cmd' →
  cmd !! "action" = cmd' !! "action".
Proof.
  intros Hperm Hcall Hcall'.
  apply simulate_Ok in Hcall as (st & Hloop & Hdec).
  apply simulate_Ok in Hcall' as (st' & Hloop' & Hdec').
  pose proof (scan_over_threshold network_state st Hloop) as Hiff.
  pose proof (scan_over_threshold network_state' st' Hloop') as Hiff'.
  pose proof (scan_inv_loop network_state [] scan_init st scan_inv_init Hloop) as Hinv.
  pose proof (scan_inv_loop network_state' [] scan_init st' scan_inv_init Hloop')
    as Hinv'.
  cbn [app] in Hinv, Hinv'. unfold scan_inv in Hinv, Hinv'.
  assert ((∃ node u, node ∈ network_state ∧ battery_ok node = Ok true ∧
                     uncertainty node = VNum u ∧ py_gt u (PyFloat 0.6) = true) ↔
          (∃ node u, node ∈ network_state' ∧ battery_ok node = Ok true ∧
                     uncertainty node = VNum u ∧ py_gt u (PyFloat 0.6) = true))
    as Hsame.
  { split; intros (node & u & Hin & Hrest); exists node, u; split; try done.
    - by rewrite <- Hperm.
    - by rewrite Hperm. }
  apply (decided_action format_value) in Hdec
    as [(Hact & best & Hbest & Hgt & _)|[-> Hno]];
  apply (decided_action format_value) in Hdec'
    as [(Hact' & best' & Hbest' & Hgt' & _)|[-> Hno']].
  - by rewrite Hact, Hact'.
  - exfalso. rewrite Hbest in Hinv. destruct Hinv as (_ & _ & Hok & _).
    assert (∃ b, best_candidate st' = Some b ∧ battery_ok b = Ok true ∧
                 py_gt (max_uncertainty st') (PyFloat 0.6) = true)
      as (b' & Hb' & Hok' & Hgt') by (apply Hiff', Hsame, Hiff; eauto).
    rewrite Hb' in Hno'. by rewrite (eligible_truthy b' Hok'), Hgt' in Hno'.
  - exfalso. rewrite Hbest' in Hinv'. destruct Hinv' as (_ & _ & Hok' & _).
    assert (∃ b, best_candidate st = Some b ∧ battery_ok b = Ok true ∧
                 py_gt (max_uncertainty st) (PyFloat 0.6) = true)
      as (b & Hb & Hok & Hgt) by (apply Hiff, Hsame, Hiff'; eauto).
    rewrite Hb in Hno. by rewrite (eligible_truthy b Hok), Hgt in Hno.
  - done.
Qed.

(** *** Networks of simulators *)

Section Snapshots.
Variable py_round : float → Z → float.

Lemma to_json_dict_fields (self : IoTNodeSimulator) :
  let d := to_json_dict py_round self in
  d !! "node_id" = Some (VStr (NodeSimulator.node_id (state self))) ∧
  (∃ b, d !! "battery_percent" = Some (VNum (PyFloat b))) ∧
  d !! "data_uncertainty" =
    Some (VNum (PyFloat (py_round (NodeSimulator.data_uncertainty (state self)) 4))) ∧
  d !! "harvest_potential" =
    Some (VNum (PyFloat (NodeSimulator.harvest_potential (state self)))).
Proof. cbn zeta. split_and!; try reflexivity. eexists. reflexivity. Qed.

Lemma to_json_dict_well_formed (self : IoTNodeSimulator) :
  well_formed (to_json_dict py_round self).
Proof.
  destruct (to_json_dict_fields self) as (Hid & [b Hb] & Hu & Hh).
  split; [by eexists|]. intros k Hk. unfold NUMERIC_FIELDS in Hk.
  key_cases Hk; by rewrite ?Hb, ?Hu, ?Hh.
Qed.

(** X17: on the dicts [to_json] builds for any simulators, the call raises
    nothing; the command it returns conforms to [LLM_OUTPUT_SCHEMA], and when
    it is a [WAKE_NODE] its target is the [node_id] of one of the
    simulators. *)
Theorem simulators_network_is_decided
    (simulators : list IoTNodeSimulator) (mission_goal : string) :
  ∃ cmd,
    simulate_llm_api_call format_value (to_json_dict py_round <$> simulators)
      mission_goal = Ok cmd ∧
    validates LLM_OUTPUT_SCHEMA (VDict cmd) = true ∧
    (cmd !! "action" = Some (VStr "WAKE_NODE") →
     ∃ self, self ∈ simulators ∧
             cmd !! "target_node_id" =
               Some (VStr (NodeSimulator.node_id (state self)))).
Proof.
  set (network_state := to_json_dict py_round <$> simulators).
  assert (Forall well_formed network_state) as Hwf.
  { unfold network_state. apply Forall_fmap, Forall_forall.
    intros self _. apply to_json_dict_well_formed. }
  destruct (scan_loop_total network_state scan_init Hwf) as [st Hloop].
  pose proof (scan_inv_loop network_state [] scan_init st scan_inv_init Hloop) as Hinv.
  cbn [app] in Hinv. unfold scan_inv in Hinv.
  destruct (decide_command_total format_value st) as [cmd Hcmd].
  { destruct (best_candidate st) as [best|]; [|done].
    destruct Hinv as (i & Hi & _). rewrite Forall_lookup in Hwf. by apply (Hwf i). }
  assert (simulate_llm_api_call format_value network_state mission_goal = Ok cmd)
    as Hcall by (unfold simulate_llm_api_call; by rewrite Hloop).
  exists cmd. split_and!; [done| |].
  - apply (command_conforms_to_schema_aux network_state mission_goal cmd); [|done].
    intros node v [self [-> _]]%list_elem_of_fmap Hv.
    destruct (to_json_dict_fields self) as (Hid & _). cbn zeta in Hid.
    rewrite Hid in Hv. injection Hv as <-. by eexists.
  - intros Hact. apply decide_command_Ok in Hcmd.
    apply (decided_action format_value) in Hcmd
      as [(_ & best & Hbest & _ & Htarget & _)|[-> _]]; [|done].
    rewrite Hbest in Hinv. destruct Hinv as (i & Hi & _).
    apply list_elem_of_lookup_2, list_elem_of_fmap in Hi as [self [-> Hself]].
    exists self. split; [done|]. rewrite Htarget.
    by destruct (to_json_dict_fields self) as (Hid & _).
Qed.

End Snapshots.

End Robust.

(** Witness of [ill_typed_record_raises]: the [__main__] network with a
    string for the battery of [Node_11], after the sound [Node_42]. *)
Lemma ill_typed_record_raises_witness :
  simulate_llm_api_call format_plain
    [Node_42; <["battery_percent" := VStr "full"]> Node_11]
    "Reduce the highest data uncertainty" = Raise TypeError.
Proof.
  apply ill_typed_record_raises.
  exists (<["battery_percent" := VStr "full"]> Node_11). split.
  - apply list_elem_of_further, list_elem_of_here.
  - left. reflexivity.
Defined.

(** Witness of [raises_only_TypeError_or_missing_node_id]: a lone eligible
    record over the threshold that has no [node_id]. *)
Lemma raises_only_TypeError_or_missing_node_id_witness :
  let node : gmap string value :=
    list_to_map [ ("battery_percent", VNum (PyFloat 50.0));
                  ("harvest_potential", VNum (PyFloat 0.3));
                  ("data_uncertainty", VNum (PyFloat 0.75)) ] in
  KeyError "node_id" = TypeError ∨
  (KeyError "node_id" = KeyError "node_id" ∧
   ∃ (i : nat) (n : gmap string value) (u : pynum),
     [node] !! i = Some n ∧
     n !! "node_id" = None ∧
     battery_ok n = Ok true ∧
     dict_get n "data_uncertainty" (VNum (PyInt 0)) = VNum u ∧
     py_gt u (PyFloat 0.6) = true).
Proof.
  exact (raises_only_TypeError_or_missing_node_id format_plain
           [ list_to_map [ ("battery_percent", VNum (PyFloat 50.0));
                           ("harvest_potential", VNum (PyFloat 0.3));
                           ("data_uncertainty", VNum (PyFloat 0.75)) ] ]
           "Reduce the highest data uncertainty" (KeyError "node_id") eq_refl).
Defined.



(** Witness of [command_policy_is_accepted]: the [SENSE_HIGH] of the command
    for the [__main__] network, applied to a fresh simulator. *)
Lemma command_policy_is_accepted_witness :
  ∃ p, VStr "SENSE_HIGH" = VStr p ∧
       p ∈ POLICIES ∧
       NodeSimulator.current_policy
         (state (set_policy (init "t0" "Node_11" 1000) p)) = p.
Proof.
  exact (command_policy_is_accepted format_plain [Node_42; Node_11]
           "Reduce the highest data uncertainty" _ (VStr "SENSE_HIGH")
           (init "t0" "Node_11" 1000) eq_refl eq_refl).
Defined.

(** Witness of [action_is_order_independent]: the [__main__] network in
    both orders. *)
Lemma action_is_order_independent_witness :
  Some (VStr "WAKE_NODE") = Some (VStr "WAKE_NODE").
Proof.
  exact (action_is_order_independent format_plain
           [Node_42; Node_11] [Node_11; Node_42] "goal" "goal" _ _
           (Permutation_swap Node_11 Node_42 []) eq_refl eq_refl).
Defined.

End LlmOrchestratorRobust.
